(** * Filename date extraction and baby-age labels

    A shallow embedding of the two photo-labelling scripts
    [add_baby_age_to_photos.py] and [add_timestamp_to_photos.py]:
    the filename date extractors, the range validator and the
    calendar-aware age computation, together with the parts of the
    Python runtime they call ([str], [re.search], [os.path.splitext],
    [int], [datetime]). *)

From Stdlib Require Import ZArith List Lia Bool Ascii String DecimalString.
Import ListNotations.
Open Scope Z_scope.

(** ** Python values *)

(** A Python [str] is a sequence of Unicode code points. *)
Abbreviation char := Z (only parsing).
Abbreviation str := (list Z) (only parsing).

(** ASCII literals, written as Rocq strings. *)
Definition str_of (s : string) : str :=
  map (fun a => Z.of_N (N_of_ascii a)) (list_ascii_of_string s).

Definition char_eqb (a b : char) : bool := a =? b.

Fixpoint str_eqb (a b : str) : bool :=
  match a, b with
  | [], [] => true
  | x :: a', y :: b' => char_eqb x y && str_eqb a' b'
  | _, _ => false
  end.

(** [s[a:b]] for non-negative bounds. *)
Definition slice (s : str) (a b : Z) : str :=
  firstn (Z.to_nat (b - a)) (skipn (Z.to_nat a) s).

(** [str(n)] for an [int]. *)
Definition str_of_int (n : Z) : str :=
  str_of (NilZero.string_of_int (Z.to_int n)).

(** The exceptions the modelled code can meet. *)
Inductive exn := ValueError.

Inductive result (A : Type) :=
| Ok (a : A)
| Raise (e : exn).
Arguments Ok {A} a.
Arguments Raise {A} e.

Definition bind {A B} (r : result A) (k : A -> result B) : result B :=
  match r with
  | Ok a => k a
  | Raise e => Raise e
  end.

Notation "x <- r ;; k" := (bind r (fun x => k))
  (at level 61, r at next level, right associativity).

(** ** Unicode decimal digits

    [\d] in a [str] pattern and [int()] both rely on the Unicode decimal
    property (category Nd).  Every Nd block is a run of ten code points
    with values 0..9; the table lists the zero of each run
    (Unicode 14.0, as shipped with CPython 3.11). *)
Definition decimal_zeros : list Z :=
  [ 0x30; 0x660; 0x6f0; 0x7c0; 0x966; 0x9e6; 0xa66; 0xae6; 0xb66; 0xbe6;
    0xc66; 0xce6; 0xd66; 0xde6; 0xe50; 0xed0; 0xf20; 0x1040; 0x1090;
    0x17e0; 0x1810; 0x1946; 0x19d0; 0x1a80; 0x1a90; 0x1b50; 0x1bb0;
    0x1c40; 0x1c50; 0xa620; 0xa8d0; 0xa900; 0xa9d0; 0xa9f0; 0xaa50;
    0xabf0; 0xff10; 0x104a0; 0x10d30; 0x11066; 0x110f0; 0x11136;
    0x111d0; 0x112f0; 0x11450; 0x114d0; 0x11650; 0x116c0; 0x11730;
    0x118e0; 0x11950; 0x11c50; 0x11d50; 0x11da0; 0x16a60; 0x16ac0;
    0x16b50; 0x1d7ce; 0x1d7d8; 0x1d7e2; 0x1d7ec; 0x1d7f6; 0x1e140;
    0x1e2f0; 0x1e950; 0x1fbf0 ].

(** [unicodedata.decimal(c)], [None] when [c] is not a decimal digit. *)
Definition decimal (c : char) : option Z :=
  match find (fun z => (z <=? c) && (c <? z + 10)) decimal_zeros with
  | Some z => Some (c - z)
  | None => None
  end.

Definition isdecimal (c : char) : bool :=
  match decimal c with Some _ => true | None => false end.

Arguments decimal : simpl never.

Definition isascii (c : char) : bool := (0 <=? c) && (c <? 128).

(** ** [int()] *)

Inductive pyval :=
| PStr (s : str)
| PInt (z : Z).

(** Value of a run of decimal digits, most significant first. *)
Fixpoint digits_value (acc : Z) (s : str) : option Z :=
  match s with
  | [] => Some acc
  | c :: s' =>
      match decimal c with
      | Some v => digits_value (10 * acc + v) s'
      | None => None
      end
  end.

(** [int(v)].  An [int] is returned unchanged.  For a [str] the model
    covers the digit-only strings, which is all the scripts pass (the
    arguments are [\d{n}] groups).  Python's [int] also accepts
    surrounding whitespace, a sign and single underscores between
    digits; such strings never reach it here and the model answers
    [ValueError] for them, so nothing below is stated about them. *)
Definition py_int (v : pyval) : result Z :=
  match v with
  | PInt z => Ok z
  | PStr [] => Raise ValueError
  | PStr s =>
      match digits_value 0 s with
      | Some z => Ok z
      | None => Raise ValueError
      end
  end.

(** ** [re.search] for the two patterns

    Both patterns are plain sequences of single-character classes, so a
    match at a position is decided class by class and the search returns
    the leftmost position that matches. *)
Inductive cls :=
| Digit                       (* \d *)
| OneOf (cs : list char)      (* [...] *)
| Range (lo hi : char)        (* [a-b] *)
| Lit (c : char).

Definition cls_match (k : cls) (c : char) : bool :=
  match k with
  | Digit => isdecimal c
  | OneOf cs => existsb (char_eqb c) cs
  | Range lo hi => (lo <=? c) && (c <=? hi)
  | Lit x => char_eqb c x
  end.

(** The text matched when the pattern matches at the head of [s]. *)
Fixpoint match_at (p : list cls) (s : str) : option str :=
  match p with
  | [] => Some []
  | k :: p' =>
      match s with
      | [] => None
      | c :: s' =>
          if cls_match k c
          then match match_at p' s' with
               | Some m => Some (c :: m)
               | None => None
               end
          else None
      end
  end.

(** [re.search(p, s)]: group 0 of the leftmost match. *)
Fixpoint search (p : list cls) (s : str) : option str :=
  match match_at p s with
  | Some m => Some m
  | None =>
      match s with
      | [] => None
      | _ :: s' => search p s'
      end
  end.

Definition dot : char := 0x2e.
Definition dash : char := 0x2d.
Definition underscore : char := 0x5f.

(** [(\d{4})[.\-_](\d{2})[.\-_](\d{2})] *)
Definition delimited_pattern : list cls :=
  [Digit; Digit; Digit; Digit; OneOf [dot; dash; underscore];
   Digit; Digit; OneOf [dot; dash; underscore]; Digit; Digit].

(** [(20[2-9]\d)(\d{4})] *)
Definition contiguous_pattern : list cls :=
  [Lit 0x32; Lit 0x30; Range 0x32 0x39; Digit; Digit; Digit; Digit; Digit].

(** ** [os.path.splitext] *)

Inductive flavour := posix | nt.

Definition sep (os : flavour) : char :=
  match os with posix => 0x2f | nt => 0x5c end.

Definition altsep (os : flavour) : option char :=
  match os with posix => None | nt => Some 0x2f end.

Fixpoint rfind_from (c : char) (p : str) (i found : Z) : Z :=
  match p with
  | [] => found
  | x :: p' => rfind_from c p' (i + 1) (if char_eqb x c then i else found)
  end.

(** [p.rfind(c)], -1 when [c] does not occur. *)
Definition rfind (c : char) (p : str) : Z := rfind_from c p 0 (-1).

(** The [while filenameIndex < dotIndex] loop of [_splitext]: [true] when
    it returns from inside, on a character that is not a dot. *)
Fixpoint skip_leading_dots (fuel : nat) (p : str) (filenameIndex dotIndex : Z)
  : bool :=
  match fuel with
  | O => false
  | S fuel' =>
      if filenameIndex <? dotIndex then
        if negb (str_eqb (slice p filenameIndex (filenameIndex + 1)) [dot])
        then true
        else skip_leading_dots fuel' p (filenameIndex + 1) dotIndex
      else false
  end.

Definition _splitext (p : str) (sep : char) (altsep : option char)
  (extsep : char) : str * str :=
  let sepIndex := rfind sep p in
  let sepIndex :=
    match altsep with
    | Some a => Z.max sepIndex (rfind a p)
    | None => sepIndex
    end in
  let dotIndex := rfind extsep p in
  if (sepIndex <? dotIndex)
     && skip_leading_dots (Z.to_nat (dotIndex - (sepIndex + 1))) p
          (sepIndex + 1) dotIndex
  then (firstn (Z.to_nat dotIndex) p, skipn (Z.to_nat dotIndex) p)
  else (p, []).

Definition splitext (os : flavour) (p : str) : str * str :=
  _splitext p (sep os) (altsep os) dot.

(** ** [datetime]

    The date part of Python's [datetime] (the scripts build every value
    with three arguments, so the time fields are always zero). *)
Module Datetime.

Record datetime := make { year : Z; month : Z; day : Z }.

Definition MINYEAR : Z := 1.
Definition MAXYEAR : Z := 9999.

Definition _DAYS_IN_MONTH : list Z :=
  [-1; 31; 28; 31; 30; 31; 30; 31; 31; 30; 31; 30; 31].

(** The table built by the module's start-up loop. *)
Definition _DAYS_BEFORE_MONTH : list Z :=
  fst (fold_left (fun '(tbl, dbm) dim => (tbl ++ [dbm], dbm + dim))
                 (tl _DAYS_IN_MONTH) ([-1], 0)).

Definition index (l : list Z) (i : Z) : Z := nth (Z.to_nat i) l 0.

Definition _is_leap (year : Z) : bool :=
  (year mod 4 =? 0) && (negb (year mod 100 =? 0) || (year mod 400 =? 0)).

Definition _days_before_year (year : Z) : Z :=
  let y := year - 1 in
  y * 365 + y / 4 - y / 100 + y / 400.

Definition _days_in_month (year month : Z) : Z :=
  if (month =? 2) && _is_leap year then 29
  else index _DAYS_IN_MONTH month.

Definition _days_before_month (year month : Z) : Z :=
  index _DAYS_BEFORE_MONTH month
  + (if (2 <? month) && _is_leap year then 1 else 0).

Definition _ymd2ord (year month day : Z) : Z :=
  _days_before_year year + _days_before_month year month + day.

Definition _check_date_fields (year month day : Z) : result (Z * Z * Z) :=
  if negb ((MINYEAR <=? year) && (year <=? MAXYEAR)) then Raise ValueError
  else if negb ((1 <=? month) && (month <=? 12)) then Raise ValueError
  else
    let dim := _days_in_month year month in
    if negb ((1 <=? day) && (day <=? dim)) then Raise ValueError
    else Ok (year, month, day).

(** [datetime(year, month, day)] *)
Definition new (year month day : Z) : result datetime :=
  checked <- _check_date_fields year month day ;;
  let '(y, m, d) := checked in
  Ok (make y m d).

Definition toordinal (d : datetime) : Z :=
  _ymd2ord (year d) (month d) (day d).

(** [a < b]: field-wise comparison, year first. *)
Definition lt (a b : datetime) : bool :=
  (year a <? year b)
  || ((year a =? year b)
      && ((month a <? month b)
          || ((month a =? month b) && (day a <? day b)))).

(** [(a - b).days] *)
Definition sub_days (a b : datetime) : Z := toordinal a - toordinal b.

(** Values the constructor can return. *)
Definition valid (d : datetime) : Prop :=
  new (year d) (month d) (day d) = Ok d.

End Datetime.

Abbreviation datetime := Datetime.datetime.

(** ** add_baby_age_to_photos.py *)
Module AgeScript.

Definition BIRTH_DATE : datetime := Datetime.make 2025 9 2.

Definition _is_valid_date (year month day : pyval) : bool :=
  match
    (y <- py_int year ;;
     m <- py_int month ;;
     d <- py_int day ;;
     if (y <? 2000) || (2099 <? y) then Ok false
     else if (m <? 1) || (12 <? m) then Ok false
     else if (d <? 1) || (31 <? d) then Ok false
     else Ok true)
  with
  | Ok b => b
  | Raise ValueError => false
  end.

(** The [for pattern in patterns] loop; [Ok None] when the loop ends
    without returning. *)
Fixpoint try_patterns (patterns : list (list cls)) (name_without_ext : str)
  : result (option datetime) :=
  match patterns with
  | [] => Ok None
  | pattern :: rest =>
      match search pattern name_without_ext with
      | Some m =>
          let year := slice m 0 4 in
          let month := slice m 5 7 in
          let day := slice m 8 10 in
          if _is_valid_date (PStr year) (PStr month) (PStr day) then
            y <- py_int (PStr year) ;;
            mo <- py_int (PStr month) ;;
            d <- py_int (PStr day) ;;
            dt <- Datetime.new y mo d ;;
            Ok (Some dt)
          else try_patterns rest name_without_ext
      | None => try_patterns rest name_without_ext
      end
  end.

Definition extract_date_from_filename (os : flavour) (filename : str)
  : result (option datetime) :=
  let name_without_ext := fst (splitext os filename) in
  let patterns := [delimited_pattern] in
  r <- try_patterns patterns name_without_ext ;;
  match r with
  | Some dt => Ok (Some dt)
  | None =>
      let pattern := contiguous_pattern in
      match search pattern name_without_ext with
      | Some m =>
          year <- py_int (PStr (slice m 0 4)) ;;
          let month_day := slice m 4 8 in
          month <- py_int (PStr (slice month_day 0 2)) ;;
          day <- py_int (PStr (slice month_day 2 4)) ;;
          if _is_valid_date (PInt year) (PInt month) (PInt day) then
            dt <- Datetime.new year month day ;;
            Ok (Some dt)
          else Ok None
      | None => Ok None
      end
  end.

Definition tian : str := [0x5929].                        (* 天 *)
Definition ge_yue : str := [0x4e2a; 0x6708].              (* 个月 *)
Definition juli_chusheng : str := [0x8ddd; 0x79bb; 0x51fa; 0x751f]. (* 距离出生 *)

Definition mem (x : Z) (l : list Z) : bool := existsb (Z.eqb x) l.

(** The arithmetic of the [else] branch of [calculate_age], up to
    [total_months]: the pair [(total_months, days)]. *)
Definition age_parts (photo_date : datetime) : Z * Z :=
  let years := Datetime.year photo_date - Datetime.year BIRTH_DATE in
  let months := Datetime.month photo_date - Datetime.month BIRTH_DATE in
  let days := Datetime.day photo_date - Datetime.day BIRTH_DATE in
  let '(months, days) :=
    if days <? 0 then
      let months := months - 1 in
      let '(prev_month, prev_year) :=
        if Datetime.month photo_date =? 1
        then (12, Datetime.year photo_date - 1)
        else (Datetime.month photo_date - 1, Datetime.year photo_date) in
      let days_in_prev_month :=
        if mem prev_month [1; 3; 5; 7; 8; 10; 12] then 31
        else if mem prev_month [4; 6; 9; 11] then 30
        else if ((prev_year mod 4 =? 0) && negb (prev_year mod 100 =? 0))
                || (prev_year mod 400 =? 0)
             then 29
             else 28 in
      (months, days_in_prev_month + days)
    else (months, days) in
  let '(months, years) :=
    if months <? 0 then (months + 12, years - 1) else (months, years) in
  let total_months := years * 12 + months in
  (total_months, days).

Definition calculate_age (photo_date : datetime) : str :=
  if Datetime.lt photo_date BIRTH_DATE then
    let days_before := Datetime.sub_days BIRTH_DATE photo_date in
    juli_chusheng ++ str_of_int days_before ++ tian
  else
    let '(total_months, days) := age_parts photo_date in
    if total_months =? 0 then str_of_int days ++ tian
    else if days =? 0 then str_of_int total_months ++ ge_yue
    else str_of_int total_months ++ ge_yue ++ str_of_int days ++ tian.

End AgeScript.

(** ** add_timestamp_to_photos.py *)
Module TimestampScript.

Definition _is_valid_date (year month day : pyval) : bool :=
  match
    (y <- py_int year ;;
     m <- py_int month ;;
     d <- py_int day ;;
     if (y <? 2000) || (2099 <? y) then Ok false
     else if (m <? 1) || (12 <? m) then Ok false
     else if (d <? 1) || (31 <? d) then Ok false
     else Ok true)
  with
  | Ok b => b
  | Raise ValueError => false
  end.

(** The f-string [f"{year}.{month}.{day}"] over three [str] values. *)
Definition render (year month day : str) : str :=
  year ++ [dot] ++ month ++ [dot] ++ day.

Fixpoint try_patterns (patterns : list (list cls)) (name_without_ext : str)
  : option str :=
  match patterns with
  | [] => None
  | pattern :: rest =>
      match search pattern name_without_ext with
      | Some m =>
          let year := slice m 0 4 in
          let month := slice m 5 7 in
          let day := slice m 8 10 in
          if _is_valid_date (PStr year) (PStr month) (PStr day)
          then Some (render year month day)
          else try_patterns rest name_without_ext
      | None => try_patterns rest name_without_ext
      end
  end.

Definition extract_date_from_filename (os : flavour) (filename : str)
  : option str :=
  let name_without_ext := fst (splitext os filename) in
  let patterns := [delimited_pattern] in
  match try_patterns patterns name_without_ext with
  | Some s => Some s
  | None =>
      let pattern := contiguous_pattern in
      match search pattern name_without_ext with
      | Some m =>
          let year := slice m 0 4 in
          let month_day := slice m 4 8 in
          let month := slice month_day 0 2 in
          let day := slice month_day 2 4 in
          if _is_valid_date (PStr year) (PStr month) (PStr day)
          then Some (render year month day)
          else None
      | None => None
      end
  end.

End TimestampScript.

(** ** The spec's side

    Definitions that follow the specification's wording, to be compared
    with the code above. *)

(** A two-digit zero-padded field. *)
Definition pad2 (n : Z) : str :=
  if n <? 10 then str_of "0" ++ str_of_int n else str_of_int n.

(** DateFormatter: ["{year}.{zero-padded month}.{zero-padded day}"]. *)
Definition spec_format (year month day : Z) : str :=
  str_of_int year ++ [dot] ++ pad2 month ++ [dot] ++ pad2 day.

(** Range validation (4.1a). *)
Definition in_ranges (y m d : Z) : Prop :=
  2000 <= y <= 2099 /\ 1 <= m <= 12 /\ 1 <= d <= 31.

(** A pattern occurs somewhere in a name, with matched text [m]. *)
Definition occurs (p : list cls) (s m : str) : Prop :=
  exists pre post, s = pre ++ m ++ post /\ match_at p (m ++ post) = Some m.

(** The separators of the delimited pattern. *)
Definition delims : list char := [dot; dash; underscore].

(** The year, month and day texts that the control flow common to both
    scripts selects from a stem: the leftmost delimited match when it
    passes validation, otherwise the leftmost contiguous match when that
    passes. *)
Definition matched_fields (name : str) : option (str * str * str) :=
  let ok := fun t : str * str * str =>
    let '(y, m, d) := t in
    AgeScript._is_valid_date (PStr y) (PStr m) (PStr d) in
  let fallback :=
    match search contiguous_pattern name with
    | Some m =>
        let t := (slice m 0 4, slice m 4 6, slice m 6 8) in
        if ok t then Some t else None
    | None => None
    end in
  match search delimited_pattern name with
  | Some m =>
      let t := (slice m 0 4, slice m 5 7, slice m 8 10) in
      if ok t then Some t else fallback
  | None => fallback
  end.

(** What is known of a selected triple of fields. *)
Record fields_ok (name ys ms ds : str) (y m d : Z) : Prop := {
  fo_len : List.length ys = 4%nat /\ List.length ms = 2%nat
           /\ List.length ds = 2%nat;
  fo_digits : Forall (fun c => isdecimal c = true) (ys ++ ms ++ ds);
  fo_int : py_int (PStr ys) = Ok y /\ py_int (PStr ms) = Ok m
           /\ py_int (PStr ds) = Ok d;
  fo_ranges : in_ranges y m d;
  fo_verbatim :
    exists pre s1 s2 post,
      name = pre ++ ys ++ s1 ++ ms ++ s2 ++ ds ++ post
      /\ ((s1 = [] /\ s2 = [])
          \/ exists c1 c2, s1 = [c1] /\ s2 = [c2]
                           /\ In c1 delims /\ In c2 delims);
  fo_ascii :
    forallb isascii (ys ++ ms ++ ds) = true ->
    TimestampScript.render ys ms ds = spec_format y m d
}.

(** Sample filenames. *)
Definition april_31_name : str := str_of "2022.04.31.jpg".

(** A name written with Arabic-Indic digits: U+0662 U+0660 U+0662 U+0662
    [.] U+0660 U+0669 [.] U+0662 U+0661 [.jpg]. *)
Definition arabic_indic_name : str :=
  [0x662; 0x660; 0x662; 0x662; 0x2e; 0x660; 0x669; 0x2e; 0x662; 0x661]
  ++ str_of ".jpg".

Definition rejected_then_contiguous_name : str :=
  str_of "1999.09.21_20250904.jpg".

Definition second_delimited_name : str :=
  str_of "1999.01.01_2022.09.21_20250904.jpg".

Definition both_patterns_name : str := str_of "2022-09-21_IMG20250904.jpg".

(** A day of the calendar: a month 1..12 and a day within that month. *)
Definition calendar_day (d : datetime) : Prop :=
  1 <= Datetime.month d <= 12
  /\ 1 <= Datetime.day d
     <= Datetime._days_in_month (Datetime.year d) (Datetime.month d).

(** The day after [d]. *)
Definition next_day (d : datetime) : datetime :=
  if Datetime.day d
     <? Datetime._days_in_month (Datetime.year d) (Datetime.month d)
  then Datetime.make (Datetime.year d) (Datetime.month d) (Datetime.day d + 1)
  else if Datetime.month d <? 12
  then Datetime.make (Datetime.year d) (Datetime.month d + 1) 1
  else Datetime.make (Datetime.year d + 1) 1 1.

(** The extra day of a leap year. *)
Definition leap_day (year : Z) : Z :=
  if Datetime._is_leap year then 1 else 0.

(** The specification's reference algorithm for a photo date on or after
    the reference date. *)
Definition spec_is_leap (y : Z) : bool :=
  ((y mod 4 =? 0) && negb (y mod 100 =? 0)) || (y mod 400 =? 0).

Definition spec_month_length (y m : Z) : Z :=
  match m with
  | 2 => if spec_is_leap y then 29 else 28
  | 4 | 6 | 9 | 11 => 30
  | _ => 31
  end.

Definition spec_parts (ref photo : datetime) : Z * Z :=
  let years := Datetime.year photo - Datetime.year ref in
  let months := Datetime.month photo - Datetime.month ref in
  let days := Datetime.day photo - Datetime.day ref in
  let borrow_day := days <? 0 in
  let preceding :=
    if Datetime.month photo =? 1
    then spec_month_length (Datetime.year photo - 1) 12
    else spec_month_length (Datetime.year photo) (Datetime.month photo - 1) in
  let months := if borrow_day then months - 1 else months in
  let days := if borrow_day then days + preceding else days in
  let borrow_month := months <? 0 in
  let years := if borrow_month then years - 1 else years in
  let months := if borrow_month then months + 12 else months in
  (years * 12 + months, days).

Definition spec_describe (ref photo : datetime) : str :=
  let '(totalMonths, days) := spec_parts ref photo in
  if totalMonths =? 0 then str_of_int days ++ AgeScript.tian
  else if days =? 0 then str_of_int totalMonths ++ AgeScript.ge_yue
  else str_of_int totalMonths ++ AgeScript.ge_yue
       ++ str_of_int days ++ AgeScript.tian.

(** ** The drivers

    [process_photos] of both scripts.  The directory listing is taken as
    given ([image_files], the names that passed the extension filter);
    opening, drawing on and saving an image ([add_age_to_image],
    [add_timestamp_to_image]) is outside the model and appears as a
    function telling whether the call returned or raised (any
    [Exception] it raises is caught by the loop). *)

(** What a run reports: the printed lines whose content depends on the
    files (the banner lines are left out). *)
Inductive event :=
| NoImages                       (* 在 ... 中未找到图片文件 *)
| Found (n : nat)                (* 找到 n 张图片 *)
| Skipped (name : str)           (* 跳过: name (无法从文件名提取日期) *)
| Processed (name label : str)   (* 已处理: name -> label *)
| Failed (name : str)            (* 错误: 处理 name 时出错 *)
| Summary (success_count skip_count : Z).

(** The name an event is about. *)
Definition event_name (e : event) : option str :=
  match e with
  | Skipped n | Processed n _ | Failed n => Some n
  | _ => None
  end.

Definition is_skipped (e : event) : bool :=
  match e with Skipped _ => true | _ => false end.

Definition is_processed (e : event) : bool :=
  match e with Processed _ _ => true | _ => false end.

Definition is_failed (e : event) : bool :=
  match e with Failed _ => true | _ => false end.

Module TimestampDriver.

Section Loop.
Variable os : flavour.
Variable add_timestamp_to_image : str -> str -> bool.

(** The [for image_file in image_files] loop: the lines printed and the
    final [(success_count, skip_count)]. *)
Fixpoint loop (image_files : list str) (success_count skip_count : Z)
  : list event * (Z * Z) :=
  match image_files with
  | [] => ([], (success_count, skip_count))
  | image_file :: rest =>
      match TimestampScript.extract_date_from_filename os image_file with
      | None =>
          let '(log, counts) := loop rest success_count (skip_count + 1) in
          (Skipped image_file :: log, counts)
      | Some date_string =>
          if add_timestamp_to_image image_file date_string then
            let '(log, counts) := loop rest (success_count + 1) skip_count in
            (Processed image_file date_string :: log, counts)
          else
            let '(log, counts) := loop rest success_count skip_count in
            (Failed image_file :: log, counts)
      end
  end.

Definition process_photos (image_files : list str) : list event :=
  match image_files with
  | [] => [NoImages]
  | _ =>
      let '(log, (success_count, skip_count)) := loop image_files 0 0 in
      Found (List.length image_files) :: log
      ++ [Summary success_count skip_count]
  end.

End Loop.

End TimestampDriver.

Module AgeDriver.

Section Loop.
Variable os : flavour.
Variable add_age_to_image : str -> str -> bool.

(** The loop; the third component is the exception that left it, if
    any: [extract_date_from_filename] is called outside the [try]. *)
Fixpoint loop (image_files : list str) (success_count skip_count : Z)
  : list event * (Z * Z) * option exn :=
  match image_files with
  | [] => ([], (success_count, skip_count), None)
  | image_file :: rest =>
      match AgeScript.extract_date_from_filename os image_file with
      | Raise e => ([], (success_count, skip_count), Some e)
      | Ok None =>
          let '(log, counts, raised) :=
            loop rest success_count (skip_count + 1) in
          (Skipped image_file :: log, counts, raised)
      | Ok (Some photo_date) =>
          let age_string := AgeScript.calculate_age photo_date in
          if add_age_to_image image_file age_string then
            let '(log, counts, raised) :=
              loop rest (success_count + 1) skip_count in
            (Processed image_file age_string :: log, counts, raised)
          else
            let '(log, counts, raised) :=
              loop rest success_count skip_count in
            (Failed image_file :: log, counts, raised)
      end
  end.

(** The lines printed, and the exception that ended the run if any (the
    summary is then never printed). *)
Definition process_photos (image_files : list str)
  : list event * option exn :=
  match image_files with
  | [] => ([NoImages], None)
  | _ =>
      let '(log, (success_count, skip_count), raised) :=
        loop image_files 0 0 in
      match raised with
      | Some e => (Found (List.length image_files) :: log, Some e)
      | None =>
          (Found (List.length image_files) :: log
           ++ [Summary success_count skip_count], None)
      end
  end.

End Loop.

End AgeDriver.

(** ** Further vocabulary for the properties *)

(** No character of [s] is a decimal digit. *)
Definition no_digit (s : str) : bool :=
  forallb (fun c => negb (isdecimal c)) s.

(** No character of [s] is a path separator of either flavour. *)
Definition no_separator (s : str) : bool :=
  forallb (fun c => negb (char_eqb c 0x2f) && negb (char_eqb c 0x5c)) s.


(** Order on [(total_months, days)] pairs: months first. *)
Definition parts_lt (a b : Z * Z) : Prop :=
  fst a < fst b \/ (fst a = fst b /\ snd a < snd b).

(** The length of the month before month [m] of year [y]. *)
Definition previous_month_length (y m : Z) : Z :=
  if m =? 1 then Datetime._days_in_month (y - 1) 12
  else Datetime._days_in_month y (m - 1).

(** The name yields no date. *)
Definition has_no_date (os : flavour) (name : str) : bool :=
  match TimestampScript.extract_date_from_filename os name with
  | None => true
  | Some _ => false
  end.

(** The age script's extractor raises on the name. *)
Definition age_raises (os : flavour) (name : str) : bool :=
  match AgeScript.extract_date_from_filename os name with
  | Raise _ => true
  | Ok _ => false
  end.

(** The age script's extractor returns [None] on the name. *)
Definition age_no_date (os : flavour) (name : str) : bool :=
  match AgeScript.extract_date_from_filename os name with
  | Ok None => true
  | _ => false
  end.

(** How many events of a kind a log holds. *)
Definition count_events (f : event -> bool) (log : list event) : Z :=
  Z.of_nat (List.length (filter f log)).

(** * Properties of the runtime model *)

Lemma decimal_bounds c v : decimal c = Some v -> 0 <= v <= 9.
Proof.
  unfold decimal.
  destruct (find _ decimal_zeros) as [z|] eqn:E; [|discriminate].
  apply find_some in E. destruct E as [_ E].
  intros [= <-]. lia.
Qed.

Lemma isdecimal_value c :
  isdecimal c = true -> exists v, decimal c = Some v /\ 0 <= v <= 9.
Proof.
  unfold isdecimal. destruct (decimal c) as [v|] eqn:E; [|discriminate].
  intros _. exists v. split; [reflexivity | eapply decimal_bounds; eauto].
Qed.

(** An ASCII decimal digit is ['0' + value]. *)
Lemma decimal_ascii c v :
  decimal c = Some v -> isascii c = true -> c = 48 + v.
Proof.
  unfold decimal, isascii. intros H Ha.
  destruct (find _ decimal_zeros) as [z|] eqn:E; [|discriminate].
  apply find_some in E. destruct E as [Hin E].
  injection H as <-.
  unfold decimal_zeros in Hin.
  repeat (destruct Hin as [<- | Hin]; [lia|]). destruct Hin.
Qed.

Lemma match_at_sound p : forall s m,
  match_at p s = Some m ->
  exists post, s = m ++ post
    /\ Forall2 (fun k c => cls_match k c = true) p m.
Proof.
  induction p as [|k p IH]; intros s m H; cbn in H.
  - injection H as <-. exists s. split; [reflexivity | constructor].
  - destruct s as [|c s]; [discriminate|].
    destruct (cls_match k c) eqn:Ek; [|discriminate].
    destruct (match_at p s) as [m'|] eqn:Em; [|discriminate].
    injection H as <-.
    destruct (IH _ _ Em) as (post & -> & HF).
    exists post. split; [reflexivity | constructor; assumption].
Qed.

Lemma search_sound p : forall s m,
  search p s = Some m -> occurs p s m.
Proof.
  induction s as [|c s IH]; intros m H; cbn in H.
  - destruct (match_at p []) eqn:E; [|discriminate].
    injection H as <-.
    destruct (match_at_sound _ _ _ E) as (post & Hs & _).
    exists [], post. split; [exact Hs | rewrite <- Hs; exact E].
  - destruct (match_at p (c :: s)) eqn:E.
    + injection H as <-.
      destruct (match_at_sound _ _ _ E) as (post & Hs & _).
      exists [], post. split; [exact Hs | rewrite <- Hs; exact E].
    + destruct (IH _ H) as (pre & post & -> & Hm).
      exists (c :: pre), post. split; [reflexivity | exact Hm].
Qed.

(** The leftmost match: the pattern matches at no earlier position. *)
Lemma search_leftmost p : forall s m,
  search p s = Some m ->
  exists pre post, s = pre ++ m ++ post
    /\ match_at p (m ++ post) = Some m
    /\ forall a b, pre = a ++ b -> b <> [] ->
         match_at p (b ++ m ++ post) = None.
Proof.
  induction s as [|c s IH]; intros m H; cbn in H.
  - destruct (match_at p []) eqn:E; [|discriminate].
    injection H as <-.
    destruct (match_at_sound _ _ _ E) as (post & Hs & _).
    exists [], post. repeat split; [exact Hs | rewrite <- Hs; exact E |].
    intros a b Hab Hb. destruct a; destruct b; try discriminate; congruence.
  - destruct (match_at p (c :: s)) eqn:E.
    + injection H as <-.
      destruct (match_at_sound _ _ _ E) as (post & Hs & _).
      exists [], post. repeat split; [exact Hs | rewrite <- Hs; exact E |].
      intros a b Hab Hb. destruct a; destruct b; try discriminate; congruence.
    + destruct (IH _ H) as (pre & post & -> & Hm & Hleft).
      exists (c :: pre), post. repeat split; [exact Hm|].
      intros a b Hab Hb. destruct a as [|x a]; cbn in Hab.
      * subst b. exact E.
      * injection Hab as _ Hab. eapply Hleft; eauto.
Qed.

Lemma decimal_ascii_digit c : 48 <= c <= 57 -> decimal c = Some (c - 48).
Proof.
  intros H. unfold decimal.
  change decimal_zeros with (48 :: tl decimal_zeros).
  cbn [find].
  replace ((48 <=? c) && (c <? 48 + 10)) with true; [reflexivity|].
  symmetry. apply andb_true_iff. split; [apply Z.leb_le | apply Z.ltb_lt]; lia.
Qed.

Lemma py_int_2 a b va vb :
  decimal a = Some va -> decimal b = Some vb ->
  py_int (PStr [a; b]) = Ok (10 * va + vb).
Proof.
  intros Ha Hb. unfold py_int. cbn [digits_value].
  rewrite Ha, Hb. f_equal; lia.
Qed.

Lemma py_int_4 a b c d va vb vc vd :
  decimal a = Some va -> decimal b = Some vb ->
  decimal c = Some vc -> decimal d = Some vd ->
  py_int (PStr [a; b; c; d]) = Ok (1000 * va + 100 * vb + 10 * vc + vd).
Proof.
  intros Ha Hb Hc Hd. unfold py_int. cbn [digits_value].
  rewrite Ha, Hb, Hc, Hd. f_equal; lia.
Qed.

(** The two validators are the same function, and on arguments that
    [int()] accepts they are exactly the range check. *)
Lemma validators_agree year month day :
  AgeScript._is_valid_date year month day
  = TimestampScript._is_valid_date year month day.
Proof. reflexivity. Qed.

Lemma is_valid_date_ranges year month day y m d :
  py_int year = Ok y -> py_int month = Ok m -> py_int day = Ok d ->
  (AgeScript._is_valid_date year month day = true <-> in_ranges y m d).
Proof.
  intros Hy Hm Hd. unfold AgeScript._is_valid_date, in_ranges.
  rewrite Hy, Hm, Hd. cbn [bind].
  destruct (y <? 2000) eqn:E1; destruct (2099 <? y) eqn:E2;
  destruct (m <? 1) eqn:E3; destruct (12 <? m) eqn:E4;
  destruct (d <? 1) eqn:E5; destruct (31 <? d) eqn:E6; cbn;
  split; intros H; try discriminate; try reflexivity; lia.
Qed.

Lemma is_valid_date_same_ints year month day y m d :
  py_int year = Ok y -> py_int month = Ok m -> py_int day = Ok d ->
  AgeScript._is_valid_date (PInt y) (PInt m) (PInt d)
  = AgeScript._is_valid_date year month day.
Proof.
  intros Hy Hm Hd. unfold AgeScript._is_valid_date.
  rewrite Hy, Hm, Hd. reflexivity.
Qed.

(** Shape of a match of the delimited pattern. *)
Lemma delimited_shape m post :
  match_at delimited_pattern (m ++ post) = Some m ->
  exists a b c d s1 e f s2 g h,
    m = [a; b; c; d; s1; e; f; s2; g; h]
    /\ Forall (fun x => isdecimal x = true) [a; b; c; d; e; f; g; h]
    /\ In s1 delims /\ In s2 delims.
Proof.
  intros H. apply match_at_sound in H. destruct H as (post' & _ & HF).
  unfold delimited_pattern in HF.
  repeat match goal with
         | H : Forall2 _ (_ :: _) _ |- _ => inversion H; subst; clear H
         | H : Forall2 _ [] _ |- _ => inversion H; subst; clear H
         end.
  cbn [cls_match] in *.
  assert (Hd : forall x, existsb (char_eqb x) [dot; dash; underscore] = true
                         -> In x delims).
  { intros x Hx. apply existsb_exists in Hx. destruct Hx as (z & Hz & E).
    apply Z.eqb_eq in E. subst z. exact Hz. }
  do 10 eexists. split; [reflexivity|].
  split; [repeat constructor; assumption|].
  split; apply Hd; assumption.
Qed.

(** Shape of a match of the contiguous pattern. *)
Lemma contiguous_shape m post :
  match_at contiguous_pattern (m ++ post) = Some m ->
  exists c d e f g h,
    m = [50; 48; c; d; e; f; g; h]
    /\ 50 <= c <= 57
    /\ Forall (fun x => isdecimal x = true) [d; e; f; g; h].
Proof.
  intros H. apply match_at_sound in H. destruct H as (post' & _ & HF).
  unfold contiguous_pattern in HF.
  repeat match goal with
         | H : Forall2 _ (_ :: _) _ |- _ => inversion H; subst; clear H
         | H : Forall2 _ [] _ |- _ => inversion H; subst; clear H
         end.
  cbn [cls_match] in *. unfold char_eqb in *.
  repeat match goal with
         | H : (_ =? _) = true |- _ => apply Z.eqb_eq in H; subst
         | H : _ && _ = true |- _ => apply andb_true_iff in H; destruct H
         | H : (_ <=? _) = true |- _ => apply Z.leb_le in H
         end.
  do 6 eexists. split; [reflexivity|].
  split; [lia | repeat constructor; assumption].
Qed.

Lemma pad2_digits e f :
  0 <= e <= 9 -> 0 <= f <= 9 -> pad2 (10 * e + f) = [48 + e; 48 + f].
Proof.
  intros He Hf.
  assert (E : e = 0 \/ e = 1 \/ e = 2 \/ e = 3 \/ e = 4 \/ e = 5 \/ e = 6
              \/ e = 7 \/ e = 8 \/ e = 9) by lia.
  assert (F : f = 0 \/ f = 1 \/ f = 2 \/ f = 3 \/ f = 4 \/ f = 5 \/ f = 6
              \/ f = 7 \/ f = 8 \/ f = 9) by lia.
  repeat (destruct E as [-> | E]); try subst e;
  repeat (destruct F as [-> | F]); try subst f; reflexivity.
Qed.

Lemma year_digits c d :
  0 <= c <= 9 -> 0 <= d <= 9 ->
  str_of_int (2000 + 10 * c + d) = [50; 48; 48 + c; 48 + d].
Proof.
  intros Hc Hd.
  assert (E : c = 0 \/ c = 1 \/ c = 2 \/ c = 3 \/ c = 4 \/ c = 5 \/ c = 6
              \/ c = 7 \/ c = 8 \/ c = 9) by lia.
  assert (F : d = 0 \/ d = 1 \/ d = 2 \/ d = 3 \/ d = 4 \/ d = 5 \/ d = 6
              \/ d = 7 \/ d = 8 \/ d = 9) by lia.
  repeat (destruct E as [-> | E]); try subst c;
  repeat (destruct F as [-> | F]); try subst d; reflexivity.
Qed.

(** * The two extractors share one selection of digit fields *)

Ltac digit_of HF c v Hv Hb :=
  destruct (isdecimal_value c) as (v & Hv & Hb);
  [ apply (proj1 (Forall_forall _ _) HF); cbn [In]; tauto | ].

Ltac ascii_digits :=
  repeat match goal with
         | H : _ && _ = true |- _ => apply andb_true_iff in H; destruct H
         | H : decimal ?c = Some ?v, A : isascii ?c = true |- _ =>
             pose proof (decimal_ascii _ _ H A); clear A
         end.

Lemma isdecimal_of_value c v : decimal c = Some v -> isdecimal c = true.
Proof. unfold isdecimal. intros ->. reflexivity. Qed.

Lemma ascii_render_year a b c d va vb vc vd :
  a = 48 + va -> b = 48 + vb -> c = 48 + vc -> d = 48 + vd ->
  0 <= va <= 9 -> 0 <= vb <= 9 -> 0 <= vc <= 9 -> 0 <= vd <= 9 ->
  2000 <= 1000 * va + 100 * vb + 10 * vc + vd <= 2099 ->
  str_of_int (1000 * va + 100 * vb + 10 * vc + vd) = [a; b; c; d].
Proof.
  intros -> -> -> -> Ha Hb Hc Hd Hy.
  assert (va = 2) by lia. assert (vb = 0) by lia. subst va vb.
  replace (1000 * 2 + 100 * 0 + 10 * vc + vd) with (2000 + 10 * vc + vd)
    by lia.
  rewrite year_digits by lia. reflexivity.
Qed.

Lemma delimited_fields_ok name m :
  search delimited_pattern name = Some m ->
  AgeScript._is_valid_date (PStr (slice m 0 4)) (PStr (slice m 5 7))
    (PStr (slice m 8 10)) = true ->
  exists y mo d,
    fields_ok name (slice m 0 4) (slice m 5 7) (slice m 8 10) y mo d.
Proof.
  intros Hs Hv. apply search_sound in Hs.
  destruct Hs as (pre & post & -> & Hm).
  destruct (delimited_shape _ _ Hm)
    as (a & b & c & d & s1 & e & f & s2 & g & h & -> & HF & H1 & H2).
  change (slice [a; b; c; d; s1; e; f; s2; g; h] 0 4) with [a; b; c; d] in *.
  change (slice [a; b; c; d; s1; e; f; s2; g; h] 5 7) with [e; f] in *.
  change (slice [a; b; c; d; s1; e; f; s2; g; h] 8 10) with [g; h] in *.
  digit_of HF a va Da Ba. digit_of HF b vb Db Bb.
  digit_of HF c vc Dc Bc. digit_of HF d vd Dd Bd.
  digit_of HF e ve De Be. digit_of HF f vf Df Bf.
  digit_of HF g vg Dg Bg. digit_of HF h vh Dh Bh.
  pose proof (py_int_4 _ _ _ _ _ _ _ _ Da Db Dc Dd) as Iy.
  pose proof (py_int_2 _ _ _ _ De Df) as Im.
  pose proof (py_int_2 _ _ _ _ Dg Dh) as Id.
  pose proof (proj1 (is_valid_date_ranges _ _ _ _ _ _ Iy Im Id) Hv) as R.
  do 3 eexists. constructor.
  - repeat split.
  - exact HF.
  - repeat split; eassumption.
  - exact R.
  - exists pre, [s1], [s2], post. split; [reflexivity|].
    right. exists s1, s2. repeat split; assumption.
  - cbn [app forallb]. intros A. ascii_digits.
    unfold TimestampScript.render, spec_format.
    destruct R as (Ry & Rm & Rd).
    rewrite (ascii_render_year a b c d) by (assumption || lia).
    rewrite !pad2_digits by lia. subst. reflexivity.
Qed.

Lemma contiguous_fields_ok name m :
  search contiguous_pattern name = Some m ->
  AgeScript._is_valid_date (PStr (slice m 0 4)) (PStr (slice m 4 6))
    (PStr (slice m 6 8)) = true ->
  exists y mo d,
    fields_ok name (slice m 0 4) (slice m 4 6) (slice m 6 8) y mo d.
Proof.
  intros Hs Hv. apply search_sound in Hs.
  destruct Hs as (pre & post & -> & Hm).
  destruct (contiguous_shape _ _ Hm)
    as (c & d & e & f & g & h & -> & Hc & HF).
  change (slice [50; 48; c; d; e; f; g; h] 0 4) with [50; 48; c; d] in *.
  change (slice [50; 48; c; d; e; f; g; h] 4 6) with [e; f] in *.
  change (slice [50; 48; c; d; e; f; g; h] 6 8) with [g; h] in *.
  assert (H2 : decimal 50 = Some 2) by (apply (decimal_ascii_digit 50); lia).
  assert (H0 : decimal 48 = Some 0) by (apply (decimal_ascii_digit 48); lia).
  pose proof (decimal_ascii_digit c ltac:(lia)) as Hvc.
  digit_of HF d vd Dd Bd.
  digit_of HF e ve De Be. digit_of HF f vf Df Bf.
  digit_of HF g vg Dg Bg. digit_of HF h vh Dh Bh.
  pose proof (py_int_4 _ _ _ _ _ _ _ _ H2 H0 Hvc Dd) as Iy.
  pose proof (py_int_2 _ _ _ _ De Df) as Im.
  pose proof (py_int_2 _ _ _ _ Dg Dh) as Id.
  pose proof (proj1 (is_valid_date_ranges _ _ _ _ _ _ Iy Im Id) Hv) as R.
  do 3 eexists. constructor.
  - repeat split.
  - cbn [app]. repeat constructor;
      eapply isdecimal_of_value; eassumption.
  - repeat split; eassumption.
  - exact R.
  - exists pre, [], [], post. split; [reflexivity|].
    left. split; reflexivity.
  - cbn [app forallb]. intros A. ascii_digits.
    unfold TimestampScript.render, spec_format.
    destruct R as (Ry & Rm & Rd).
    rewrite (ascii_render_year 50 48 c d 2 0 (c - 48) vd) by lia.
    rewrite !pad2_digits by lia. subst. reflexivity.
Qed.

Lemma matched_fields_ok name ys ms ds :
  matched_fields name = Some (ys, ms, ds) ->
  exists y m d, fields_ok name ys ms ds y m d.
Proof.
  unfold matched_fields. intros H.
  assert (Hfb :
    match search contiguous_pattern name with
    | Some m =>
        if AgeScript._is_valid_date (PStr (slice m 0 4)) (PStr (slice m 4 6))
             (PStr (slice m 6 8))
        then Some (slice m 0 4, slice m 4 6, slice m 6 8) else None
    | None => None
    end = Some (ys, ms, ds) -> exists y m d, fields_ok name ys ms ds y m d).
  { destruct (search contiguous_pattern name) as [m|] eqn:E2; [|discriminate].
    destruct (AgeScript._is_valid_date _ _ _) eqn:V2; [|discriminate].
    intros [= <- <- <-]. eapply contiguous_fields_ok; eassumption. }
  destruct (search delimited_pattern name) as [m|] eqn:E1; [|auto].
  cbv zeta in H.
  destruct (AgeScript._is_valid_date (PStr (slice m 0 4)) _ _) eqn:V1; [|auto].
  injection H as <- <- <-. eapply delimited_fields_ok; eassumption.
Qed.

(** The timestamp script renders the selected fields. *)
Lemma stamp_by_fields os filename :
  TimestampScript.extract_date_from_filename os filename
  = match matched_fields (fst (splitext os filename)) with
    | Some (ys, ms, ds) => Some (TimestampScript.render ys ms ds)
    | None => None
    end.
Proof.
  unfold TimestampScript.extract_date_from_filename, matched_fields.
  generalize (fst (splitext os filename)) as name. intros name.
  cbn [TimestampScript.try_patterns]. cbv zeta.
  change TimestampScript._is_valid_date with AgeScript._is_valid_date.
  assert (Hfb :
    match search contiguous_pattern name with
    | Some m =>
        if AgeScript._is_valid_date (PStr (slice m 0 4))
             (PStr (slice (slice m 4 8) 0 2)) (PStr (slice (slice m 4 8) 2 4))
        then Some (TimestampScript.render (slice m 0 4)
                     (slice (slice m 4 8) 0 2) (slice (slice m 4 8) 2 4))
        else None
    | None => None
    end
    = match
        match search contiguous_pattern name with
        | Some m =>
            if AgeScript._is_valid_date (PStr (slice m 0 4))
                 (PStr (slice m 4 6)) (PStr (slice m 6 8))
            then Some (slice m 0 4, slice m 4 6, slice m 6 8) else None
        | None => None
        end
      with
      | Some (ys, ms, ds) => Some (TimestampScript.render ys ms ds)
      | None => None
      end).
  { destruct (search contiguous_pattern name) as [m|] eqn:E2; [|reflexivity].
    apply search_sound in E2. destruct E2 as (pre & post & _ & Hm).
    destruct (contiguous_shape _ _ Hm) as (c & d & e & f & g & h & -> & _).
    change (slice (slice [50; 48; c; d; e; f; g; h] 4 8) 0 2) with [e; f].
    change (slice (slice [50; 48; c; d; e; f; g; h] 4 8) 2 4) with [g; h].
    change (slice [50; 48; c; d; e; f; g; h] 4 6) with [e; f].
    change (slice [50; 48; c; d; e; f; g; h] 6 8) with [g; h].
    destruct (AgeScript._is_valid_date _ _ _); reflexivity. }
  destruct (search delimited_pattern name) as [m|] eqn:E1.
  - destruct (AgeScript._is_valid_date (PStr (slice m 0 4)) _ _) eqn:V1.
    + reflexivity.
    + exact Hfb.
  - exact Hfb.
Qed.

(** The age script converts the selected fields and builds a [datetime]. *)
Lemma age_by_fields os filename :
  AgeScript.extract_date_from_filename os filename
  = match matched_fields (fst (splitext os filename)) with
    | Some (ys, ms, ds) =>
        y <- py_int (PStr ys) ;;
        mo <- py_int (PStr ms) ;;
        d <- py_int (PStr ds) ;;
        dt <- Datetime.new y mo d ;;
        Ok (Some dt)
    | None => Ok None
    end.
Proof.
  unfold AgeScript.extract_date_from_filename, matched_fields.
  generalize (fst (splitext os filename)) as name. intros name.
  cbn [AgeScript.try_patterns]. cbv zeta.
  assert (Hfb :
    match search contiguous_pattern name with
    | Some m =>
        year <- py_int (PStr (slice m 0 4)) ;;
        month <- py_int (PStr (slice (slice m 4 8) 0 2)) ;;
        day <- py_int (PStr (slice (slice m 4 8) 2 4)) ;;
        (if AgeScript._is_valid_date (PInt year) (PInt month) (PInt day)
         then dt <- Datetime.new year month day ;; Ok (Some dt)
         else Ok None)
    | None => Ok None
    end
    = match
        match search contiguous_pattern name with
        | Some m =>
            if AgeScript._is_valid_date (PStr (slice m 0 4))
                 (PStr (slice m 4 6)) (PStr (slice m 6 8))
            then Some (slice m 0 4, slice m 4 6, slice m 6 8) else None
        | None => None
        end
      with
      | Some (ys, ms, ds) =>
          y <- py_int (PStr ys) ;;
          mo <- py_int (PStr ms) ;;
          d <- py_int (PStr ds) ;;
          dt <- Datetime.new y mo d ;;
          Ok (Some dt)
      | None => Ok None
      end).
  { destruct (search contiguous_pattern name) as [m|] eqn:E2; [|reflexivity].
    apply search_sound in E2. destruct E2 as (pre & post & _ & Hm).
    destruct (contiguous_shape _ _ Hm)
      as (c & d & e & f & g & h & -> & Hc & HF).
    change (slice (slice [50; 48; c; d; e; f; g; h] 4 8) 0 2) with [e; f].
    change (slice (slice [50; 48; c; d; e; f; g; h] 4 8) 2 4) with [g; h].
    change (slice [50; 48; c; d; e; f; g; h] 0 4) with [50; 48; c; d].
    change (slice [50; 48; c; d; e; f; g; h] 4 6) with [e; f].
    change (slice [50; 48; c; d; e; f; g; h] 6 8) with [g; h].
    assert (H2 : decimal 50 = Some 2) by (apply (decimal_ascii_digit 50); lia).
    assert (H0 : decimal 48 = Some 0) by (apply (decimal_ascii_digit 48); lia).
    pose proof (decimal_ascii_digit c ltac:(lia)) as Dc.
    digit_of HF d vd Dd Bd.
    digit_of HF e ve De Be. digit_of HF f vf Df Bf.
    digit_of HF g vg Dg Bg. digit_of HF h vh Dh Bh.
    pose proof (py_int_4 _ _ _ _ _ _ _ _ H2 H0 Dc Dd) as Iy.
    pose proof (py_int_2 _ _ _ _ De Df) as Im.
    pose proof (py_int_2 _ _ _ _ Dg Dh) as Id.
    rewrite Iy, Im, Id. cbn [bind].
    rewrite (is_valid_date_same_ints _ _ _ _ _ _ Iy Im Id).
    destruct (AgeScript._is_valid_date _ _ _); [|reflexivity].
    rewrite Iy, Im, Id. reflexivity. }
  destruct (search delimited_pattern name) as [m|] eqn:E1.
  - destruct (AgeScript._is_valid_date (PStr (slice m 0 4)) _ _) eqn:V1.
    + destruct (py_int (PStr (slice m 0 4))); [|reflexivity].
      destruct (py_int (PStr (slice m 5 7))); [|reflexivity].
      destruct (py_int (PStr (slice m 8 10))); [|reflexivity].
      cbn [bind]. destruct (Datetime.new _ _ _); reflexivity.
    + cbn [bind]. exact Hfb.
  - cbn [bind]. exact Hfb.
Qed.

Lemma new_ok y m d dt :
  Datetime.new y m d = Ok dt -> dt = Datetime.make y m d.
Proof.
  unfold Datetime.new, Datetime._check_date_fields.
  destruct (negb _); [discriminate|].
  destruct (negb _); [discriminate|].
  destruct (negb _); [discriminate|].
  cbn. congruence.
Qed.

(** Both extractors, side by side, on any filename. *)
Lemma extract_cases os filename :
  (AgeScript.extract_date_from_filename os filename = Ok None
   /\ TimestampScript.extract_date_from_filename os filename = None)
  \/ exists ys ms ds y m d,
       fields_ok (fst (splitext os filename)) ys ms ds y m d
       /\ TimestampScript.extract_date_from_filename os filename
          = Some (TimestampScript.render ys ms ds)
       /\ AgeScript.extract_date_from_filename os filename
          = (dt <- Datetime.new y m d ;; Ok (Some dt)).
Proof.
  rewrite age_by_fields, stamp_by_fields.
  destruct (matched_fields (fst (splitext os filename)))
    as [[[ys ms] ds]|] eqn:E.
  - right. destruct (matched_fields_ok _ _ _ _ E) as (y & m & d & Hok).
    exists ys, ms, ds, y, m, d. split; [exact Hok|]. split; [reflexivity|].
    destruct (fo_int _ _ _ _ _ _ _ Hok) as (-> & -> & ->). reflexivity.
  - left. split; reflexivity.
Qed.

(** * Claims about extraction *)

(** C1 (the code departs from the claim): extraction is claimed to end
    in a Date or in null for every filename and never in an exception,
    April 31 being accepted and returned.  The timestamp script does
    return the April 31 fields, but in the age script the triple passes
    [_is_valid_date] and the [datetime] constructor then raises
    [ValueError], on either path flavour. *)
Theorem C1_april_31_raises :
  forall os,
    AgeScript._is_valid_date (PStr (str_of "2022")) (PStr (str_of "04"))
      (PStr (str_of "31")) = true
    /\ AgeScript.extract_date_from_filename os april_31_name
       = Raise ValueError
    /\ TimestampScript.extract_date_from_filename os april_31_name
       = Some (str_of "2022.04.31").
Proof. intros []; vm_compute; repeat split; reflexivity. Qed.

(** When the age script's extractor raises: exactly when the selected
    fields pass the range check but name no calendar day. *)
Lemma age_extract_raises os filename e :
  AgeScript.extract_date_from_filename os filename = Raise e ->
  exists ys ms ds y m d,
    fields_ok (fst (splitext os filename)) ys ms ds y m d
    /\ Datetime.new y m d = Raise ValueError.
Proof.
  intros H. destruct (extract_cases os filename)
    as [[H1 _] | (ys & ms & ds & y & m & d & Hok & _ & Ha)].
  - congruence.
  - exists ys, ms, ds, y, m, d. split; [exact Hok|].
    rewrite Ha in H. destruct (Datetime.new y m d) as [dt|[]];
      [discriminate | reflexivity].
Qed.

(** C8: every Date the age extractor returns, and every field triple
    the timestamp extractor renders, lies in year 2000..2099, month
    1..12, day 1..31; [_is_valid_date] in both scripts is exactly that
    range check, with no look at the length of the month, so April 31
    and 29 February 2023 pass it. *)
Theorem C8_range_validation :
  (forall os filename dt,
      AgeScript.extract_date_from_filename os filename = Ok (Some dt) ->
      in_ranges (Datetime.year dt) (Datetime.month dt) (Datetime.day dt))
  /\ (forall os filename s,
      TimestampScript.extract_date_from_filename os filename = Some s ->
      exists ys ms ds y m d,
        s = TimestampScript.render ys ms ds
        /\ py_int (PStr ys) = Ok y /\ py_int (PStr ms) = Ok m
        /\ py_int (PStr ds) = Ok d /\ in_ranges y m d)
  /\ (forall year month day y m d,
      py_int year = Ok y -> py_int month = Ok m -> py_int day = Ok d ->
      (AgeScript._is_valid_date year month day = true <-> in_ranges y m d)
      /\ (TimestampScript._is_valid_date year month day = true
          <-> in_ranges y m d))
  /\ AgeScript._is_valid_date (PStr (str_of "2022")) (PStr (str_of "04"))
       (PStr (str_of "31")) = true
  /\ TimestampScript._is_valid_date (PStr (str_of "2022"))
       (PStr (str_of "04")) (PStr (str_of "31")) = true
  /\ AgeScript._is_valid_date (PInt 2023) (PInt 2) (PInt 29) = true
  /\ TimestampScript.extract_date_from_filename nt april_31_name
     = Some (str_of "2022.04.31").
Proof.
  split; [|split; [|split]].
  - intros os filename dt H.
    destruct (extract_cases os filename)
      as [[H1 _] | (ys & ms & ds & y & m & d & Hok & _ & Ha)];
      [congruence|].
    rewrite Ha in H. destruct (Datetime.new y m d) as [dt'|] eqn:En;
      [|discriminate].
    cbn in H. injection H as <-. apply new_ok in En. subst dt'.
    exact (fo_ranges _ _ _ _ _ _ _ Hok).
  - intros os filename s H.
    destruct (extract_cases os filename)
      as [[_ H1] | (ys & ms & ds & y & m & d & Hok & Hs & _)];
      [congruence|].
    exists ys, ms, ds, y, m, d.
    destruct (fo_int _ _ _ _ _ _ _ Hok) as (Iy & Im & Id).
    repeat split; try assumption; try congruence;
      apply (fo_ranges _ _ _ _ _ _ _ Hok).
  - intros year month day y m d Hy Hm Hd.
    change TimestampScript._is_valid_date with AgeScript._is_valid_date.
    split; apply is_valid_date_ranges; assumption.
  - vm_compute. repeat split; reflexivity.
Qed.

(** The bounds of C8 at ["IMG_2022.09.21.jpg"]. *)
Lemma C8_range_validation_witness : in_ranges 2022 9 21.
Proof.
  apply (proj1 C8_range_validation nt (str_of "IMG_2022.09.21.jpg")
           (Datetime.make 2022 9 21)).
  vm_compute. reflexivity.
Defined.

(** C9: whatever the timestamp extractor returns is the year, month and
    day texts of the match joined by dots: four, two and two decimal
    digits taken verbatim from the name (whatever the separators in the
    name were), so month and day keep their leading zero; for ASCII
    digits this is the specification's zero-padded rendering of the
    three numbers.  [format(Date(2022,9,1))] is ["2022.09.01"], and
    ["IMG_2022.09.21.jpg"] yields ["2022.09.21"]. *)
Theorem C9_timestamp_format :
  (forall os filename s,
      TimestampScript.extract_date_from_filename os filename = Some s ->
      exists ys ms ds y m d,
        s = ys ++ [dot] ++ ms ++ [dot] ++ ds
        /\ List.length ys = 4%nat /\ List.length ms = 2%nat
        /\ List.length ds = 2%nat
        /\ Forall (fun c => isdecimal c = true) (ys ++ ms ++ ds)
        /\ (exists pre s1 s2 post,
              fst (splitext os filename)
              = pre ++ ys ++ s1 ++ ms ++ s2 ++ ds ++ post)
        /\ py_int (PStr ys) = Ok y /\ py_int (PStr ms) = Ok m
        /\ py_int (PStr ds) = Ok d
        /\ (forallb isascii (ys ++ ms ++ ds) = true ->
            s = spec_format y m d))
  /\ spec_format 2022 9 1 = str_of "2022.09.01"
  /\ (forall os,
      TimestampScript.extract_date_from_filename os
        (str_of "IMG_2022.09.21.jpg") = Some (str_of "2022.09.21"))
  /\ (forall os,
      TimestampScript.extract_date_from_filename os
        (str_of "baby-2022_09-01.png") = Some (str_of "2022.09.01"))
  /\ (forall os,
      TimestampScript.extract_date_from_filename os
        (str_of "IMG_20220901.jpg") = Some (str_of "2022.09.01")).
Proof.
  split.
  - intros os filename s H.
    destruct (extract_cases os filename)
      as [[_ H1] | (ys & ms & ds & y & m & d & Hok & Hs & _)];
      [congruence|].
    exists ys, ms, ds, y, m, d.
    destruct Hok as [(L1 & L2 & L3) HD (Iy & Im & Id) _ HV HA].
    destruct HV as (pre & s1 & s2 & post & HV & _).
    rewrite Hs in H. injection H as <-.
    repeat split; try assumption.
    exists pre, s1, s2, post. exact HV.
  - split; [vm_compute; reflexivity|].
    repeat split; intros []; vm_compute; reflexivity.
Qed.

(** The shape of C9 at ["IMG_2022.09.21.jpg"]. *)
Lemma C9_timestamp_format_witness :
  exists ys ms ds, str_of "2022.09.21" = ys ++ [dot] ++ ms ++ [dot] ++ ds.
Proof.
  destruct (proj1 C9_timestamp_format nt (str_of "IMG_2022.09.21.jpg")
              (str_of "2022.09.21") eq_refl)
    as (ys & ms & ds & _ & _ & _ & H & _).
  exists ys, ms, ds. exact H.
Defined.

Lemma matched_fields_delimited name m :
  search delimited_pattern name = Some m ->
  AgeScript._is_valid_date (PStr (slice m 0 4)) (PStr (slice m 5 7))
    (PStr (slice m 8 10)) = true ->
  matched_fields name = Some (slice m 0 4, slice m 5 7, slice m 8 10).
Proof. intros E V. unfold matched_fields. rewrite E. cbv zeta. rewrite V. reflexivity. Qed.

Lemma matched_fields_rejected name m :
  search delimited_pattern name = Some m ->
  AgeScript._is_valid_date (PStr (slice m 0 4)) (PStr (slice m 5 7))
    (PStr (slice m 8 10)) = false ->
  matched_fields name
  = match search contiguous_pattern name with
    | Some m2 =>
        if AgeScript._is_valid_date (PStr (slice m2 0 4))
             (PStr (slice m2 4 6)) (PStr (slice m2 6 8))
        then Some (slice m2 0 4, slice m2 4 6, slice m2 6 8)
        else None
    | None => None
    end.
Proof. intros E V. unfold matched_fields. rewrite E. cbv zeta. rewrite V. reflexivity. Qed.

(** C2, counterexample: on a name whose date is written in Arabic-Indic
    digits the age script returns Date(2022,9,21) while the timestamp
    script returns the matched text itself, which is not the rendering
    ["2022.09.21"] of that triple. *)
Lemma C2_arabic_indic_counterexample :
  AgeScript.extract_date_from_filename posix arabic_indic_name
  = Ok (Some (Datetime.make 2022 9 21))
  /\ spec_format 2022 9 21 = str_of "2022.09.21"
  /\ TimestampScript.extract_date_from_filename posix arabic_indic_name
     <> Some (spec_format 2022 9 21).
Proof. vm_compute. repeat split; discriminate. Qed.

(** C2, amended: the two extractors return null on exactly the same
    filenames; whenever the age script returns Date(y,m,d) the timestamp
    script returns the matched year, month and day texts joined by dots,
    whose decimal values are y, m and d, and which is the zero-padded
    rendering of (y,m,d) when those digits are ASCII; and whenever the
    timestamp script returns a string whose fields name a day that
    [datetime] accepts, the age script returns that Date. *)
Theorem C2_extractors_agree os filename :
  (AgeScript.extract_date_from_filename os filename = Ok None
   <-> TimestampScript.extract_date_from_filename os filename = None)
  /\ (forall dt,
      AgeScript.extract_date_from_filename os filename = Ok (Some dt) ->
      exists ys ms ds,
        TimestampScript.extract_date_from_filename os filename
        = Some (TimestampScript.render ys ms ds)
        /\ py_int (PStr ys) = Ok (Datetime.year dt)
        /\ py_int (PStr ms) = Ok (Datetime.month dt)
        /\ py_int (PStr ds) = Ok (Datetime.day dt)
        /\ (forallb isascii (ys ++ ms ++ ds) = true ->
            TimestampScript.render ys ms ds
            = spec_format (Datetime.year dt) (Datetime.month dt)
                (Datetime.day dt)))
  /\ (forall s,
      TimestampScript.extract_date_from_filename os filename = Some s ->
      exists ys ms ds y m d,
        s = TimestampScript.render ys ms ds
        /\ py_int (PStr ys) = Ok y /\ py_int (PStr ms) = Ok m
        /\ py_int (PStr ds) = Ok d
        /\ forall dt, Datetime.new y m d = Ok dt ->
             AgeScript.extract_date_from_filename os filename
             = Ok (Some dt)).
Proof.
  destruct (extract_cases os filename)
    as [[Ha Hs] | (ys & ms & ds & y & m & d & Hok & Hs & Ha)].
  - split; [|split].
    + split; intros _; assumption.
    + intros dt H. congruence.
    + intros s H. congruence.
  - destruct (fo_int _ _ _ _ _ _ _ Hok) as (Iy & Im & Id).
    split; [|split].
    + rewrite Ha, Hs. split; [|discriminate].
      destruct (Datetime.new y m d); discriminate.
    + intros dt H. rewrite Ha in H.
      destruct (Datetime.new y m d) as [dt'|] eqn:En; [|discriminate].
      cbn in H. injection H as <-. apply new_ok in En. subst dt'.
      exists ys, ms, ds. cbn [Datetime.year Datetime.month Datetime.day].
      repeat split; try assumption.
      apply (fo_ascii _ _ _ _ _ _ _ Hok).
    + intros s H. rewrite Hs in H. injection H as <-.
      exists ys, ms, ds, y, m, d. repeat split; try assumption.
      intros dt En. rewrite Ha, En. reflexivity.
Qed.

(** The agreement of C2 at ["IMG_xxx20250904.jpg"]. *)
Lemma C2_extractors_agree_witness :
  exists ys ms ds,
    TimestampScript.extract_date_from_filename nt
      (str_of "IMG_xxx20250904.jpg")
    = Some (TimestampScript.render ys ms ds)
    /\ py_int (PStr ys) = Ok 2025.
Proof.
  destruct (proj1 (proj2 (C2_extractors_agree nt
                            (str_of "IMG_xxx20250904.jpg")))
              (Datetime.make 2025 9 4) eq_refl)
    as (ys & ms & ds & H & Hy & _).
  exists ys, ms, ds. split; [exact H | exact Hy].
Defined.

(** C3, counterexample: the leftmost delimited triple 1999.09.21 fails
    the range check, yet the result is not null: the contiguous rule is
    still tried and yields 2025-09-04. *)
Lemma C3_fallback_counterexample :
  search delimited_pattern (fst (splitext nt rejected_then_contiguous_name))
  = Some (str_of "1999.09.21")
  /\ AgeScript._is_valid_date (PStr (str_of "1999")) (PStr (str_of "09"))
       (PStr (str_of "21")) = false
  /\ AgeScript.extract_date_from_filename nt rejected_then_contiguous_name
     = Ok (Some (Datetime.make 2025 9 4))
  /\ AgeScript.extract_date_from_filename nt rejected_then_contiguous_name
     <> Ok None.
Proof. vm_compute. repeat split; discriminate. Qed.

(** C3, amended: when the leftmost delimited match fails range
    validation, the contiguous rule is tried next on the same stem.  The
    result is null exactly when that rule finds no match or its match
    fails validation; when its match passes validation and names a day
    [datetime] accepts, that date is returned. *)
Theorem C3_rejected_delimited_falls_through os filename m :
  search delimited_pattern (fst (splitext os filename)) = Some m ->
  AgeScript._is_valid_date (PStr (slice m 0 4)) (PStr (slice m 5 7))
    (PStr (slice m 8 10)) = false ->
  (AgeScript.extract_date_from_filename os filename = Ok None
   <-> (search contiguous_pattern (fst (splitext os filename)) = None
        \/ exists m2,
             search contiguous_pattern (fst (splitext os filename)) = Some m2
             /\ AgeScript._is_valid_date (PStr (slice m2 0 4))
                  (PStr (slice m2 4 6)) (PStr (slice m2 6 8)) = false))
  /\ (forall m2,
      search contiguous_pattern (fst (splitext os filename)) = Some m2 ->
      AgeScript._is_valid_date (PStr (slice m2 0 4)) (PStr (slice m2 4 6))
        (PStr (slice m2 6 8)) = true ->
      exists y mo d,
        py_int (PStr (slice m2 0 4)) = Ok y
        /\ py_int (PStr (slice m2 4 6)) = Ok mo
        /\ py_int (PStr (slice m2 6 8)) = Ok d
        /\ forall dt, Datetime.new y mo d = Ok dt ->
             AgeScript.extract_date_from_filename os filename
             = Ok (Some dt)).
Proof.
  intros E V. rewrite age_by_fields.
  rewrite (matched_fields_rejected _ _ E V).
  destruct (search contiguous_pattern (fst (splitext os filename)))
    as [m2|] eqn:E2.
  - destruct (AgeScript._is_valid_date (PStr (slice m2 0 4)) _ _) eqn:V2.
    + destruct (contiguous_fields_ok _ _ E2 V2) as (y & mo & d & Hok).
      destruct (fo_int _ _ _ _ _ _ _ Hok) as (Iy & Im & Id).
      rewrite Iy, Im, Id. cbn [bind]. split.
      * split.
        -- destruct (Datetime.new y mo d); discriminate.
        -- intros [H | (m3 & H & V3)]; [discriminate|].
           injection H as <-. congruence.
      * intros m3 H _. injection H as <-.
        exists y, mo, d. repeat split; try assumption.
        intros dt En. rewrite En. reflexivity.
    + split.
      * split; [|reflexivity]. intros _. right. exists m2. split; auto.
      * intros m3 H V3. injection H as <-. congruence.
  - split.
    + split; [|reflexivity]. intros _. left. reflexivity.
    + intros m3 H. discriminate.
Qed.

(** The fall-through of C3 at ["1999.09.21_20250904.jpg"]. *)
Lemma C3_rejected_delimited_falls_through_witness :
  AgeScript.extract_date_from_filename nt rejected_then_contiguous_name
  = Ok (Some (Datetime.make 2025 9 4)).
Proof.
  destruct (proj2 (C3_rejected_delimited_falls_through nt
                     rejected_then_contiguous_name (str_of "1999.09.21")
                     eq_refl eq_refl)
              (str_of "20250904") eq_refl eq_refl)
    as (y & mo & d & Hy & Hm & Hd & H).
  apply H.
  injection Hy as <-. injection Hm as <-. injection Hd as <-.
  reflexivity.
Defined.

(** C6, counterexample: the name holds the valid delimited triple
    2022.09.21 and the valid contiguous pattern 20250904, but the
    leftmost delimited match is 1999.01.01, which fails validation; the
    result is the contiguous date, not the delimited one. *)
Lemma C6_second_delimited_counterexample :
  occurs delimited_pattern (fst (splitext nt second_delimited_name))
    (str_of "2022.09.21")
  /\ AgeScript._is_valid_date (PStr (str_of "2022")) (PStr (str_of "09"))
       (PStr (str_of "21")) = true
  /\ occurs contiguous_pattern (fst (splitext nt second_delimited_name))
       (str_of "20250904")
  /\ AgeScript._is_valid_date (PInt 2025) (PInt 9) (PInt 4) = true
  /\ AgeScript.extract_date_from_filename nt second_delimited_name
     = Ok (Some (Datetime.make 2025 9 4))
  /\ AgeScript.extract_date_from_filename nt second_delimited_name
     <> Ok (Some (Datetime.make 2022 9 21)).
Proof.
  split; [|split; [|split; [|split; [|split]]]].
  - exists (str_of "1999.01.01_"), (str_of "_20250904").
    vm_compute. split; reflexivity.
  - vm_compute. reflexivity.
  - exists (str_of "1999.01.01_2022.09.21_"), [].
    vm_compute. split; reflexivity.
  - vm_compute. reflexivity.
  - vm_compute. reflexivity.
  - vm_compute. discriminate.
Qed.

(** C6, amended: when the leftmost delimited match passes range
    validation, its fields are the ones selected, whatever contiguous
    pattern the name also holds: the timestamp script returns them
    rendered, and the age script returns their date whenever they name a
    day [datetime] accepts. *)
Theorem C6_delimited_precedence os filename m :
  search delimited_pattern (fst (splitext os filename)) = Some m ->
  AgeScript._is_valid_date (PStr (slice m 0 4)) (PStr (slice m 5 7))
    (PStr (slice m 8 10)) = true ->
  exists y mo d,
    py_int (PStr (slice m 0 4)) = Ok y
    /\ py_int (PStr (slice m 5 7)) = Ok mo
    /\ py_int (PStr (slice m 8 10)) = Ok d
    /\ in_ranges y mo d
    /\ TimestampScript.extract_date_from_filename os filename
       = Some (TimestampScript.render (slice m 0 4) (slice m 5 7)
                 (slice m 8 10))
    /\ forall dt, Datetime.new y mo d = Ok dt ->
         AgeScript.extract_date_from_filename os filename = Ok (Some dt).
Proof.
  intros E V.
  destruct (delimited_fields_ok _ _ E V) as (y & mo & d & Hok).
  destruct (fo_int _ _ _ _ _ _ _ Hok) as (Iy & Im & Id).
  exists y, mo, d. repeat split; try assumption;
    try apply (fo_ranges _ _ _ _ _ _ _ Hok).
  - rewrite stamp_by_fields, (matched_fields_delimited _ _ E V). reflexivity.
  - intros dt En.
    rewrite age_by_fields, (matched_fields_delimited _ _ E V).
    rewrite Iy, Im, Id. cbn [bind]. rewrite En. reflexivity.
Qed.

(** The precedence of C6 at ["2022-09-21_IMG20250904.jpg"]. *)
Lemma C6_delimited_precedence_witness :
  AgeScript.extract_date_from_filename nt both_patterns_name
  = Ok (Some (Datetime.make 2022 9 21)).
Proof.
  destruct (C6_delimited_precedence nt both_patterns_name
              (str_of "2022-09-21") eq_refl eq_refl)
    as (y & mo & d & Hy & Hm & Hd & _ & _ & H).
  apply H.
  injection Hy as <-. injection Hm as <-. injection Hd as <-.
  reflexivity.
Defined.

(** * [splitext] *)

Lemma rfind_from_spec c : forall p i found,
  (~ In c p /\ rfind_from c p i found = found)
  \/ exists pre post,
       p = pre ++ c :: post /\ ~ In c post
       /\ rfind_from c p i found = i + Z.of_nat (List.length pre).
Proof.
  induction p as [|x p IH]; intros i found; cbn [rfind_from].
  - left. split; [intros [] | reflexivity].
  - destruct (IH (i + 1) (if char_eqb x c then i else found))
      as [[Hn Hr] | (pre & post & -> & Hn & Hr)].
    + unfold char_eqb in *. destruct (x =? c) eqn:E.
      * apply Z.eqb_eq in E. subst x. right.
        exists [], p. cbn. repeat split; [assumption | lia].
      * apply Z.eqb_neq in E. left. split; [|assumption].
        intros [H | H]; [congruence | contradiction].
    + right. exists (x :: pre), post. cbn [app List.length].
      repeat split; [assumption | lia].
Qed.

Lemma rfind_lower c p : -1 <= rfind c p.
Proof.
  unfold rfind.
  destruct (rfind_from_spec c p 0 (-1)) as [[_ ->] | (pre & post & _ & _ & ->)];
    lia.
Qed.

(** The root returned by [splitext] is the whole name, or the name cut
    just before its last dot. *)
Lemma splitext_root os p :
  exists ext,
    p = fst (splitext os p) ++ ext
    /\ ext = snd (splitext os p)
    /\ (ext = [] \/ exists e, ext = dot :: e /\ ~ In dot e).
Proof.
  unfold splitext, _splitext.
  set (sepIndex := match altsep os with
                   | Some a => Z.max (rfind (sep os) p) (rfind a p)
                   | None => rfind (sep os) p
                   end).
  assert (Hs : -1 <= sepIndex).
  { subst sepIndex. pose proof (rfind_lower (sep os) p).
    destruct (altsep os); [pose proof (rfind_lower z p)|]; lia. }
  destruct ((sepIndex <? rfind dot p) && _) eqn:C.
  - apply andb_true_iff in C. destruct C as [C _]. apply Z.ltb_lt in C.
    unfold rfind in *.
    destruct (rfind_from_spec dot p 0 (-1))
      as [[_ Hr] | (pre & post & Hp & Hn & Hr)]; [lia|].
    rewrite Hr. replace (Z.to_nat (0 + Z.of_nat (List.length pre)))
      with (List.length pre) by lia.
    cbn [fst snd]. rewrite Hp.
    rewrite firstn_app, Nat.sub_diag, firstn_all. cbn [firstn].
    rewrite app_nil_r.
    rewrite skipn_app, Nat.sub_diag, skipn_all. cbn [skipn app].
    exists (dot :: post). repeat split. right. exists post. split; auto.
  - exists []. cbn [fst snd]. rewrite app_nil_r. repeat split. left. reflexivity.
Qed.

(** * The calendar *)

Lemma days_before_year_step y :
  Datetime._days_before_year (y + 1)
  = Datetime._days_before_year y + 365 + leap_day y.
Proof.
  unfold Datetime._days_before_year, leap_day, Datetime._is_leap.
  replace (y + 1 - 1) with y by lia.
  destruct (Z.eqb_spec (y mod 4) 0); destruct (Z.eqb_spec (y mod 100) 0);
    destruct (Z.eqb_spec (y mod 400) 0); cbn [andb orb negb];
    Z.div_mod_to_equations; lia.
Qed.

Lemma leap_day_bounds y : 0 <= leap_day y <= 1.
Proof. unfold leap_day. destruct (Datetime._is_leap y); lia. Qed.

Lemma days_before_year_le a : forall n : nat,
  Datetime._days_before_year a + 365 * Z.of_nat n
  <= Datetime._days_before_year (a + Z.of_nat n).
Proof.
  induction n as [|n IH].
  - replace (a + Z.of_nat 0) with a by lia. lia.
  - replace (a + Z.of_nat (S n)) with (a + Z.of_nat n + 1) by lia.
    rewrite days_before_year_step.
    pose proof (leap_day_bounds (a + Z.of_nat n)). lia.
Qed.

Lemma days_before_year_mono a b :
  a <= b -> Datetime._days_before_year a <= Datetime._days_before_year b.
Proof.
  intros H. pose proof (days_before_year_le a (Z.to_nat (b - a))) as L.
  replace (a + Z.of_nat (Z.to_nat (b - a))) with b in L by lia. lia.
Qed.

Lemma month_cases m :
  1 <= m <= 12 ->
  m = 1 \/ m = 2 \/ m = 3 \/ m = 4 \/ m = 5 \/ m = 6 \/ m = 7 \/ m = 8
  \/ m = 9 \/ m = 10 \/ m = 11 \/ m = 12.
Proof. lia. Qed.

Ltac each_month H :=
  apply month_cases in H;
  repeat (destruct H as [-> | H]); try subst.

(** Month lengths and days before a month, with the leap day explicit. *)
Lemma days_in_month_eq y m :
  1 <= m <= 12 ->
  Datetime._days_in_month y m
  = Datetime.index Datetime._DAYS_IN_MONTH m
    + (if m =? 2 then leap_day y else 0).
Proof.
  intros H. unfold Datetime._days_in_month, leap_day.
  destruct (Datetime._is_leap y); each_month H; reflexivity.
Qed.

Lemma days_before_month_eq y m :
  Datetime._days_before_month y m
  = Datetime.index Datetime._DAYS_BEFORE_MONTH m
    + (if 2 <? m then leap_day y else 0).
Proof.
  unfold Datetime._days_before_month, leap_day.
  destruct (Datetime._is_leap y); destruct (2 <? m); reflexivity.
Qed.

Lemma days_before_month_table :
  Datetime._DAYS_BEFORE_MONTH
  = [-1; 0; 31; 59; 90; 120; 151; 181; 212; 243; 273; 304; 334].
Proof. reflexivity. Qed.

Ltac table_values :=
  repeat match goal with
         | |- context [Datetime.index ?t ?k] =>
             let v := eval vm_compute in (Datetime.index t k) in
             change (Datetime.index t k) with v
         | |- context [?a <? ?b] =>
             let v := eval vm_compute in (a <? b) in
             match v with
             | true => change (a <? b) with true
             | false => change (a <? b) with false
             end
         | |- context [?a =? ?b] =>
             let v := eval vm_compute in (a =? b) in
             match v with
             | true => change (a =? b) with true
             | false => change (a =? b) with false
             end
         end;
  cbv beta iota.

Lemma days_before_next_month y m :
  1 <= m <= 11 ->
  Datetime._days_before_month y (m + 1)
  = Datetime._days_before_month y m + Datetime._days_in_month y m.
Proof.
  intros H. rewrite !days_before_month_eq, days_in_month_eq by lia.
  assert (H' : 1 <= m <= 12) by lia. generalize (leap_day y). intros l.
  each_month H'; try lia; table_values; lia.
Qed.

Lemma days_before_december y :
  Datetime._days_before_month y 12 + Datetime._days_in_month y 12
  = 365 + leap_day y.
Proof.
  rewrite days_before_month_eq, days_in_month_eq by lia.
  generalize (leap_day y). intros l. table_values. lia.
Qed.

Lemma days_in_month_pos y m : 1 <= m <= 12 -> 28 <= Datetime._days_in_month y m <= 31.
Proof.
  intros H. rewrite days_in_month_eq by lia.
  pose proof (leap_day_bounds y). generalize dependent (leap_day y).
  intros l Hl. each_month H; table_values; lia.
Qed.

(** Days before a month grow with the month. *)
Lemma days_before_month_mono y : forall n : nat, forall m,
  1 <= m -> m + Z.of_nat n <= 12 ->
  Datetime._days_before_month y m + 28 * Z.of_nat n
  <= Datetime._days_before_month y (m + Z.of_nat n).
Proof.
  induction n as [|n IH]; intros m H1 H2.
  - replace (m + Z.of_nat 0) with m by lia. lia.
  - replace (m + Z.of_nat (S n)) with (m + Z.of_nat n + 1) by lia.
    rewrite days_before_next_month by lia.
    pose proof (IH m H1 ltac:(lia)).
    pose proof (days_in_month_pos y (m + Z.of_nat n) ltac:(lia)). lia.
Qed.

Lemma days_before_january y : Datetime._days_before_month y 1 = 0.
Proof. rewrite days_before_month_eq. table_values. reflexivity. Qed.

(** The day of the year lies in 1..365 (366 in a leap year). *)
Lemma day_of_year_bounds y m d :
  1 <= m <= 12 -> 1 <= d <= Datetime._days_in_month y m ->
  1 <= Datetime._days_before_month y m + d <= 365 + leap_day y.
Proof.
  intros Hm Hd.
  pose proof (days_before_month_mono y (Z.to_nat (m - 1)) 1 ltac:(lia)
                ltac:(lia)) as L1.
  replace (1 + Z.of_nat (Z.to_nat (m - 1))) with m in L1 by lia.
  rewrite days_before_january in L1.
  pose proof (days_before_month_mono y (Z.to_nat (12 - m)) m ltac:(lia)
                ltac:(lia)) as L2.
  replace (m + Z.of_nat (Z.to_nat (12 - m))) with 12 in L2 by lia.
  pose proof (days_before_december y) as D.
  pose proof (days_in_month_pos y 12 ltac:(lia)).
  destruct (Z.eq_dec m 12) as [-> | Hne]; [lia|].
  pose proof (days_before_next_month y m ltac:(lia)) as N.
  pose proof (days_before_month_mono y (Z.to_nat (12 - (m + 1))) (m + 1)
                ltac:(lia) ltac:(lia)) as L3.
  replace (m + 1 + Z.of_nat (Z.to_nat (12 - (m + 1)))) with 12 in L3 by lia.
  lia.
Qed.

Lemma toordinal_next d :
  calendar_day d ->
  Datetime.toordinal (next_day d) = Datetime.toordinal d + 1.
Proof.
  destruct d as [y m d]. unfold calendar_day, next_day, Datetime.toordinal,
    Datetime._ymd2ord. cbn [Datetime.year Datetime.month Datetime.day].
  intros (Hm & Hd).
  destruct (Z.ltb_spec d (Datetime._days_in_month y m)).
  - cbn [Datetime.year Datetime.month Datetime.day]. lia.
  - destruct (Z.ltb_spec m 12);
      cbn [Datetime.year Datetime.month Datetime.day].
    + rewrite days_before_next_month by lia. lia.
    + assert (m = 12) by lia. subst m.
      rewrite days_before_year_step, days_before_january.
      pose proof (days_before_december y). lia.
Qed.

Lemma calendar_next d : calendar_day d -> calendar_day (next_day d).
Proof.
  destruct d as [y m d]. unfold calendar_day, next_day.
  cbn [Datetime.year Datetime.month Datetime.day].
  intros (Hm & Hd).
  destruct (Z.ltb_spec d (Datetime._days_in_month y m)).
  - cbn [Datetime.year Datetime.month Datetime.day]. lia.
  - destruct (Z.ltb_spec m 12);
      cbn [Datetime.year Datetime.month Datetime.day].
    + pose proof (days_in_month_pos y (m + 1) ltac:(lia)). lia.
    + pose proof (days_in_month_pos (y + 1) 1 ltac:(lia)). lia.
Qed.

Lemma lt_spec a b :
  Datetime.lt a b = true
  <-> Datetime.year a < Datetime.year b
      \/ (Datetime.year a = Datetime.year b
          /\ (Datetime.month a < Datetime.month b
              \/ (Datetime.month a = Datetime.month b
                  /\ Datetime.day a < Datetime.day b))).
Proof.
  unfold Datetime.lt.
  rewrite !orb_true_iff, !andb_true_iff, !orb_true_iff, !andb_true_iff,
    !Z.ltb_lt, !Z.eqb_eq.
  reflexivity.
Qed.

(** Earlier dates have smaller ordinals. *)
Lemma toordinal_lt a b :
  calendar_day a -> calendar_day b -> Datetime.lt a b = true ->
  Datetime.toordinal a < Datetime.toordinal b.
Proof.
  destruct a as [ya ma da], b as [yb mb db].
  unfold calendar_day, Datetime.toordinal, Datetime._ymd2ord.
  rewrite lt_spec. cbn [Datetime.year Datetime.month Datetime.day].
  intros (Hma & Hda) (Hmb & Hdb) H.
  pose proof (day_of_year_bounds ya ma da Hma Hda) as Ba.
  pose proof (day_of_year_bounds yb mb db Hmb Hdb) as Bb.
  destruct H as [H | (-> & H)].
  - pose proof (days_before_year_step ya) as S.
    pose proof (days_before_year_mono (ya + 1) yb ltac:(lia)). lia.
  - destruct H as [H | (-> & H)]; [|lia].
    pose proof (days_before_next_month yb ma ltac:(lia)) as N.
    pose proof (days_before_month_mono yb (Z.to_nat (mb - (ma + 1))) (ma + 1)
                  ltac:(lia) ltac:(lia)) as L.
    replace (ma + 1 + Z.of_nat (Z.to_nat (mb - (ma + 1)))) with mb in L
      by lia.
    lia.
Qed.

Lemma toordinal_inj a b :
  calendar_day a -> calendar_day b ->
  Datetime.toordinal a = Datetime.toordinal b -> a = b.
Proof.
  intros Ha Hb E.
  destruct (Datetime.lt a b) eqn:L1.
  - pose proof (toordinal_lt a b Ha Hb L1). lia.
  - destruct (Datetime.lt b a) eqn:L2.
    + pose proof (toordinal_lt b a Hb Ha L2). lia.
    + destruct a as [ya ma da], b as [yb mb db].
      assert (N1 : ~ Datetime.lt (Datetime.make ya ma da)
                       (Datetime.make yb mb db) = true) by congruence.
      assert (N2 : ~ Datetime.lt (Datetime.make yb mb db)
                       (Datetime.make ya ma da) = true) by congruence.
      rewrite lt_spec in N1, N2.
      cbn [Datetime.year Datetime.month Datetime.day] in N1, N2.
      f_equal; lia.
Qed.

Lemma valid_calendar_day d : Datetime.valid d -> calendar_day d.
Proof.
  destruct d as [y m d].
  unfold Datetime.valid, Datetime.new, Datetime._check_date_fields,
    calendar_day. cbn [Datetime.year Datetime.month Datetime.day].
  destruct ((Datetime.MINYEAR <=? y) && (y <=? Datetime.MAXYEAR));
    [|discriminate]. cbn [negb].
  destruct ((1 <=? m) && (m <=? 12)) eqn:Em; [|discriminate]. cbn [negb].
  destruct ((1 <=? d) && (d <=? Datetime._days_in_month y m)) eqn:Ed;
    [|discriminate].
  intros _. apply andb_true_iff in Em, Ed. lia.
Qed.

Lemma iter_next_day n : forall d,
  calendar_day d ->
  calendar_day (Nat.iter n next_day d)
  /\ Datetime.toordinal (Nat.iter n next_day d)
     = Datetime.toordinal d + Z.of_nat n.
Proof.
  induction n as [|n IH]; intros d Hd.
  - cbn [Nat.iter nat_rect]. split; [assumption | lia].
  - destruct (IH d Hd) as (Hc & Ho).
    change (Nat.iter (S n) next_day d) with (next_day (Nat.iter n next_day d)).
    split; [apply calendar_next; assumption|].
    rewrite toordinal_next by assumption. lia.
Qed.

(** * Claims about the age label *)

Ltac closed_tests :=
  cbv beta iota zeta;
  repeat (match goal with
         | |- context [AgeScript.mem ?a ?l] =>
             let v := eval vm_compute in (AgeScript.mem a l) in
             match v with
             | true => change (AgeScript.mem a l) with true
             | false => change (AgeScript.mem a l) with false
             end
         | |- context [?a <? ?b] =>
             let v := eval vm_compute in (a <? b) in
             match v with
             | true => change (a <? b) with true
             | false => change (a <? b) with false
             end
         | |- context [?a =? ?b] =>
             let v := eval vm_compute in (a =? b) in
             match v with
             | true => change (a =? b) with true
             | false => change (a =? b) with false
             end
         end; cbv beta iota zeta).

Lemma not_before_spec a b :
  Datetime.lt a b = false ->
  ~ (Datetime.year a < Datetime.year b
     \/ (Datetime.year a = Datetime.year b
         /\ (Datetime.month a < Datetime.month b
             \/ (Datetime.month a = Datetime.month b
                 /\ Datetime.day a < Datetime.day b)))).
Proof. intros H. rewrite <- lt_spec. congruence. Qed.

(** The code's borrowing arithmetic is the specification's. *)
Lemma age_parts_spec dt :
  1 <= Datetime.month dt <= 12 ->
  AgeScript.age_parts dt = spec_parts AgeScript.BIRTH_DATE dt.
Proof.
  destruct dt as [y m d].
  unfold AgeScript.age_parts, spec_parts, AgeScript.BIRTH_DATE,
    spec_month_length, spec_is_leap.
  cbn [Datetime.year Datetime.month Datetime.day]. intros Hm.
  cbv zeta.
  destruct (d - 2 <? 0) eqn:Ed.
  - each_month Hm; closed_tests;
      try (destruct (_ || _)); f_equal; try lia;
      match goal with
      | |- context [match ?a - 1 with _ => _ end] =>
          let v := eval vm_compute in (a - 1) in
          change (a - 1) with v
      end; cbv beta iota; lia.
  - each_month Hm; closed_tests; f_equal; lia.
Qed.

(** The specification's leap rule and month table are the calendar's. *)
Lemma spec_is_leap_calendar y : spec_is_leap y = Datetime._is_leap y.
Proof.
  unfold spec_is_leap, Datetime._is_leap.
  destruct (Z.eqb_spec (y mod 4) 0); destruct (Z.eqb_spec (y mod 100) 0);
    destruct (Z.eqb_spec (y mod 400) 0); cbn [andb orb negb];
    try reflexivity; exfalso; Z.div_mod_to_equations; lia.
Qed.

Lemma spec_month_length_calendar y m :
  1 <= m <= 12 -> spec_month_length y m = Datetime._days_in_month y m.
Proof.
  intros H. unfold spec_month_length, Datetime._days_in_month.
  rewrite spec_is_leap_calendar.
  destruct (Datetime._is_leap y); each_month H; reflexivity.
Qed.

(** C4: for a photo date on or after 2025-09-02 the label is the one the
    reference algorithm gives: raw deltas, day borrowing from the month
    before the photo's month, month borrowing from the year, total
    months, then the three-way rendering; 2025-10-01 gives "29天". *)
Theorem C4_age_label_reference_algorithm :
  (forall dt,
      1 <= Datetime.month dt <= 12 ->
      Datetime.lt dt AgeScript.BIRTH_DATE = false ->
      AgeScript.calculate_age dt = spec_describe AgeScript.BIRTH_DATE dt)
  /\ AgeScript.calculate_age (Datetime.make 2025 10 1)
     = str_of "29" ++ AgeScript.tian
  /\ AgeScript.calculate_age (Datetime.make 2025 9 2)
     = str_of "0" ++ AgeScript.tian
  /\ AgeScript.calculate_age (Datetime.make 2025 10 2)
     = str_of "1" ++ AgeScript.ge_yue
  /\ AgeScript.calculate_age (Datetime.make 2026 3 1)
     = str_of "5" ++ AgeScript.ge_yue ++ str_of "27" ++ AgeScript.tian.
Proof.
  split.
  - intros dt Hm Hlt. unfold AgeScript.calculate_age, spec_describe.
    rewrite Hlt, age_parts_spec by assumption. reflexivity.
  - vm_compute. repeat split; reflexivity.
Qed.

(** The agreement of C4 at 2028-03-01, which borrows from a leap
    February. *)
Lemma C4_age_label_reference_algorithm_witness :
  AgeScript.calculate_age (Datetime.make 2028 3 1)
  = spec_describe AgeScript.BIRTH_DATE (Datetime.make 2028 3 1).
Proof.
  apply (proj1 C4_age_label_reference_algorithm).
  - cbn. lia.
  - vm_compute. reflexivity.
Defined.

(** C5: for a date on or after the reference date, once the day and
    month borrowing is done, the total of months is not negative and the
    days lie in 0..30. *)
Theorem C5_borrowing_bounds dt :
  1 <= Datetime.month dt <= 12 ->
  1 <= Datetime.day dt <= 31 ->
  Datetime.lt dt AgeScript.BIRTH_DATE = false ->
  0 <= fst (AgeScript.age_parts dt)
  /\ 0 <= snd (AgeScript.age_parts dt) < 31.
Proof.
  destruct dt as [y m d]. intros Hm Hd Hlt.
  apply not_before_spec in Hlt.
  unfold AgeScript.age_parts, AgeScript.BIRTH_DATE in *.
  cbn [Datetime.year Datetime.month Datetime.day] in *.
  cbv zeta.
  destruct (Z.ltb_spec (d - 2) 0) as [Ed | Ed].
  - each_month Hm; closed_tests; try (destruct (_ || _));
      cbn [fst snd]; lia.
  - each_month Hm; closed_tests; cbn [fst snd]; lia.
Qed.

(** The bounds of C5 at 2026-03-01. *)
Lemma C5_borrowing_bounds_witness :
  0 <= fst (AgeScript.age_parts (Datetime.make 2026 3 1))
  /\ 0 <= snd (AgeScript.age_parts (Datetime.make 2026 3 1)) < 31.
Proof.
  apply C5_borrowing_bounds.
  - cbn. lia.
  - cbn. lia.
  - vm_compute. reflexivity.
Defined.

(** C7: for a photo date before 2025-09-02 the label is "距离出生N天"
    with N the difference of the two ordinals, and N is the number of
    calendar days from the photo date to the reference date: stepping a
    day at a time reaches the reference date after exactly N steps and
    not sooner.  2025-08-20 gives "距离出生13天". *)
Theorem C7_days_before_birth :
  (forall dt,
      Datetime.valid dt ->
      Datetime.lt dt AgeScript.BIRTH_DATE = true ->
      exists n : nat,
        Z.of_nat n = Datetime.sub_days AgeScript.BIRTH_DATE dt
        /\ AgeScript.calculate_age dt
           = AgeScript.juli_chusheng ++ str_of_int (Z.of_nat n)
             ++ AgeScript.tian
        /\ (0 < n)%nat
        /\ Nat.iter n next_day dt = AgeScript.BIRTH_DATE
        /\ forall k, (k < n)%nat ->
             Nat.iter k next_day dt <> AgeScript.BIRTH_DATE)
  /\ AgeScript.calculate_age (Datetime.make 2025 8 20)
     = AgeScript.juli_chusheng ++ str_of "13" ++ AgeScript.tian.
Proof.
  split; [|vm_compute; reflexivity].
  intros dt Hv Hlt.
  pose proof (valid_calendar_day _ Hv) as Hc.
  assert (Hb : calendar_day AgeScript.BIRTH_DATE).
  { apply valid_calendar_day. vm_compute. reflexivity. }
  pose proof (toordinal_lt _ _ Hc Hb Hlt) as Ho.
  set (N := Datetime.sub_days AgeScript.BIRTH_DATE dt).
  assert (HN : 0 < N) by (unfold N, Datetime.sub_days; lia).
  exists (Z.to_nat N). split; [lia|]. split; [|split; [|split]].
  - unfold AgeScript.calculate_age. rewrite Hlt.
    rewrite Z2Nat.id by lia. reflexivity.
  - lia.
  - destruct (iter_next_day (Z.to_nat N) dt Hc) as (Hc' & Ho').
    apply toordinal_inj; [assumption | assumption|].
    rewrite Ho'. unfold N, Datetime.sub_days in *. lia.
  - intros k Hk E.
    destruct (iter_next_day k dt Hc) as (_ & Ho').
    rewrite E in Ho'. unfold N, Datetime.sub_days in *. lia.
Qed.

(** The day count of C7 at 2024-02-28, across a leap day. *)
Lemma C7_days_before_birth_witness :
  exists n : nat,
    AgeScript.calculate_age (Datetime.make 2024 2 28)
    = AgeScript.juli_chusheng ++ str_of_int (Z.of_nat n) ++ AgeScript.tian
    /\ Nat.iter n next_day (Datetime.make 2024 2 28) = AgeScript.BIRTH_DATE.
Proof.
  destruct (proj1 C7_days_before_birth (Datetime.make 2024 2 28))
    as (n & _ & H1 & _ & H2 & _).
  - vm_compute. reflexivity.
  - vm_compute. reflexivity.
  - exists n. split; assumption.
Defined.

(** * Further properties of the extractors *)

Lemma rfind_absent c : forall p i found,
  ~ In c p -> rfind_from c p i found = found.
Proof.
  induction p as [|x p IH]; intros i found H; cbn [rfind_from].
  - reflexivity.
  - unfold char_eqb. destruct (Z.eqb_spec x c) as [-> | Hne].
    + exfalso. apply H. left. reflexivity.
    + apply IH. intros Hin. apply H. right. exact Hin.
Qed.

Lemma no_separator_spec p :
  no_separator p = true -> ~ In 47 p /\ ~ In 92 p.
Proof.
  unfold no_separator. rewrite forallb_forall. intros H.
  split; intros Hin; apply H in Hin; vm_compute in Hin; discriminate.
Qed.

(** X1: on a name without path separators, which is what a directory
    listing supplies, [splitext] and both extractors give the same result
    under the POSIX and the Windows path rules. *)
Theorem X1_separator_free_names_platform_independent filename :
  no_separator filename = true ->
  splitext posix filename = splitext nt filename
  /\ AgeScript.extract_date_from_filename posix filename
     = AgeScript.extract_date_from_filename nt filename
  /\ TimestampScript.extract_date_from_filename posix filename
     = TimestampScript.extract_date_from_filename nt filename.
Proof.
  intros H. apply no_separator_spec in H. destruct H as (H1 & H2).
  assert (E : splitext posix filename = splitext nt filename).
  { unfold splitext, _splitext, sep, altsep, rfind.
    change 0x2f with 47. change 0x5c with 92.
    rewrite (rfind_absent 47 filename 0 (-1) H1).
    rewrite (rfind_absent 92 filename 0 (-1) H2).
    reflexivity. }
  split; [exact E|].
  unfold AgeScript.extract_date_from_filename,
    TimestampScript.extract_date_from_filename.
  rewrite E. split; reflexivity.
Qed.

(** X1 at ["IMG_2022.09.21.jpg"]. *)
Lemma X1_separator_free_names_platform_independent_witness :
  splitext posix (str_of "IMG_2022.09.21.jpg")
  = splitext nt (str_of "IMG_2022.09.21.jpg").
Proof.
  apply (X1_separator_free_names_platform_independent
           (str_of "IMG_2022.09.21.jpg")).
  vm_compute. reflexivity.
Defined.

Lemma Ok_inj (A : Type) (a b : A) : Ok a = Ok b -> a = b.
Proof. congruence. Qed.

Lemma new_in_ranges y m d :
  in_ranges y m d ->
  (d <= Datetime._days_in_month y m ->
   Datetime.new y m d = Ok (Datetime.make y m d))
  /\ (Datetime._days_in_month y m < d ->
      Datetime.new y m d = Raise ValueError).
Proof.
  intros (Hy & Hm & Hd).
  unfold Datetime.new, Datetime._check_date_fields, Datetime.MINYEAR,
    Datetime.MAXYEAR.
  replace ((1 <=? y) && (y <=? 9999)) with true
    by (symmetry; apply andb_true_iff; split; apply Z.leb_le; lia).
  replace ((1 <=? m) && (m <=? 12)) with true
    by (symmetry; apply andb_true_iff; split; apply Z.leb_le; lia).
  cbn [negb]. split; intros H.
  - replace ((1 <=? d) && (d <=? Datetime._days_in_month y m)) with true
      by (symmetry; apply andb_true_iff; split; apply Z.leb_le; lia).
    reflexivity.
  - replace (d <=? Datetime._days_in_month y m) with false
      by (symmetry; apply Z.leb_gt; lia).
    rewrite andb_false_r. reflexivity.
Qed.

(** X2: the age script's extractor raises exactly when the fields it
    selects, which have passed the range check, name a day beyond the end
    of their month.  Whenever the selected fields name such a day it
    raises [ValueError] and the day is 29, 30 or 31; it raises nothing
    but [ValueError]. *)
Theorem X2_age_extractor_raises_iff os filename :
  ((exists e, AgeScript.extract_date_from_filename os filename = Raise e)
   <-> exists ys ms ds y m d,
         matched_fields (fst (splitext os filename)) = Some (ys, ms, ds)
         /\ py_int (PStr ys) = Ok y /\ py_int (PStr ms) = Ok m
         /\ py_int (PStr ds) = Ok d
         /\ Datetime._days_in_month y m < d)
  /\ (forall ys ms ds y m d,
        matched_fields (fst (splitext os filename)) = Some (ys, ms, ds) ->
        py_int (PStr ys) = Ok y -> py_int (PStr ms) = Ok m ->
        py_int (PStr ds) = Ok d ->
        Datetime._days_in_month y m < d ->
        29 <= d <= 31
        /\ AgeScript.extract_date_from_filename os filename
           = Raise ValueError)
  /\ (forall e,
        AgeScript.extract_date_from_filename os filename = Raise e ->
        e = ValueError).
Proof.
  assert (Hsel : forall ys ms ds y m d,
    matched_fields (fst (splitext os filename)) = Some (ys, ms, ds) ->
    py_int (PStr ys) = Ok y -> py_int (PStr ms) = Ok m ->
    py_int (PStr ds) = Ok d ->
    in_ranges y m d
    /\ AgeScript.extract_date_from_filename os filename
       = (dt <- Datetime.new y m d ;; Ok (Some dt))).
  { intros ys ms ds y m d E Iy Im Id.
    destruct (matched_fields_ok _ _ _ _ E) as (y' & m' & d' & Hok).
    destruct (fo_int _ _ _ _ _ _ _ Hok) as (Iy' & Im' & Id').
    pose proof (fo_ranges _ _ _ _ _ _ _ Hok) as R.
    rewrite Iy in Iy'. rewrite Im in Im'. rewrite Id in Id'.
    apply Ok_inj in Iy', Im', Id'. subst y' m' d'.
    split; [exact R|].
    rewrite age_by_fields, E, Iy, Im, Id. reflexivity. }
  assert (Hforward : forall ys ms ds y m d,
    matched_fields (fst (splitext os filename)) = Some (ys, ms, ds) ->
    py_int (PStr ys) = Ok y -> py_int (PStr ms) = Ok m ->
    py_int (PStr ds) = Ok d ->
    Datetime._days_in_month y m < d ->
    29 <= d <= 31
    /\ AgeScript.extract_date_from_filename os filename
       = Raise ValueError).
  { intros ys ms ds y m d E Iy Im Id Hgt.
    destruct (Hsel _ _ _ _ _ _ E Iy Im Id) as (R & Ha).
    destruct (new_in_ranges y m d R) as (_ & N2).
    rewrite Ha, (N2 Hgt). destruct R as (_ & Rm & Rd).
    pose proof (days_in_month_pos y m Rm).
    split; [lia | reflexivity]. }
  assert (Hback : forall e,
    AgeScript.extract_date_from_filename os filename = Raise e ->
    exists ys ms ds y m d,
      matched_fields (fst (splitext os filename)) = Some (ys, ms, ds)
      /\ py_int (PStr ys) = Ok y /\ py_int (PStr ms) = Ok m
      /\ py_int (PStr ds) = Ok d
      /\ Datetime._days_in_month y m < d).
  { intros e H. pose proof H as H'. rewrite age_by_fields in H'.
    destruct (matched_fields (fst (splitext os filename)))
      as [[[ys ms] ds]|] eqn:E; [|discriminate].
    destruct (matched_fields_ok _ _ _ _ E) as (y & m & d & Hok).
    destruct (fo_int _ _ _ _ _ _ _ Hok) as (Iy & Im & Id).
    pose proof (fo_ranges _ _ _ _ _ _ _ Hok) as R.
    exists ys, ms, ds, y, m, d.
    repeat split; try assumption.
    rewrite Iy, Im, Id in H'. cbn [bind] in H'.
    destruct (new_in_ranges y m d R) as (N1 & _).
    destruct (Z.le_gt_cases d (Datetime._days_in_month y m)) as [Hle | Hgt];
      [|lia].
    rewrite (N1 Hle) in H'. discriminate. }
  split; [|split].
  - split.
    + intros (e & H). exact (Hback e H).
    + intros (ys & ms & ds & y & m & d & E & Iy & Im & Id & Hgt).
      exists ValueError. exact (proj2 (Hforward _ _ _ _ _ _ E Iy Im Id Hgt)).
  - exact Hforward.
  - intros e H.
    destruct (Hback e H) as (ys & ms & ds & y & m & d & E & Iy & Im & Id & Hgt).
    pose proof (proj2 (Hforward _ _ _ _ _ _ E Iy Im Id Hgt)) as H2.
    rewrite H in H2. congruence.
Qed.

(** X2 at ["2023.02.29.jpg"]: the selected fields name 29 February of a
    common year, so the extractor raises. *)
Lemma X2_age_extractor_raises_iff_witness :
  exists e,
    AgeScript.extract_date_from_filename nt (str_of "2023.02.29.jpg")
    = Raise e.
Proof.
  apply (proj2 (proj1 (X2_age_extractor_raises_iff nt
                         (str_of "2023.02.29.jpg")))).
  exists (str_of "2023"), (str_of "02"), (str_of "29"), 2023, 2, 29.
  vm_compute. repeat split; reflexivity.
Defined.

Lemma year_string y :
  2000 <= y <= 2099 ->
  exists c d,
    0 <= c <= 9 /\ 0 <= d <= 9 /\ y = 2000 + 10 * c + d
    /\ str_of_int y = [50; 48; 48 + c; 48 + d].
Proof.
  intros H. exists ((y - 2000) / 10), ((y - 2000) mod 10).
  assert (Hc : 0 <= (y - 2000) / 10 <= 9)
    by (Z.div_mod_to_equations; lia).
  assert (Hd : 0 <= (y - 2000) mod 10 <= 9)
    by (Z.div_mod_to_equations; lia).
  assert (E : y = 2000 + 10 * ((y - 2000) / 10) + (y - 2000) mod 10)
    by (Z.div_mod_to_equations; lia).
  repeat split; try lia.
  rewrite E at 1. apply year_digits; assumption.
Qed.

Lemma pad2_string n :
  0 <= n <= 99 ->
  exists e f,
    0 <= e <= 9 /\ 0 <= f <= 9 /\ n = 10 * e + f
    /\ pad2 n = [48 + e; 48 + f].
Proof.
  intros H. exists (n / 10), (n mod 10).
  assert (He : 0 <= n / 10 <= 9) by (Z.div_mod_to_equations; lia).
  assert (Hf : 0 <= n mod 10 <= 9) by (Z.div_mod_to_equations; lia).
  assert (E : n = 10 * (n / 10) + n mod 10)
    by (Z.div_mod_to_equations; lia).
  repeat split; try lia.
  rewrite E at 1. apply pad2_digits; assumption.
Qed.

Lemma decimal_of_value v : 0 <= v <= 9 -> decimal (48 + v) = Some v.
Proof.
  intros H. rewrite decimal_ascii_digit by lia. f_equal. lia.
Qed.

Lemma isdecimal_of_ascii v : 0 <= v <= 9 -> isdecimal (48 + v) = true.
Proof.
  intros H. eapply isdecimal_of_value. apply decimal_of_value. exact H.
Qed.

Lemma match_at_cons k p c s m :
  cls_match k c = true -> match_at p s = Some m ->
  match_at (k :: p) (c :: s) = Some (c :: m).
Proof. intros Hk Hm. cbn [match_at]. rewrite Hk, Hm. reflexivity. Qed.

Lemma search_head p s m : match_at p s = Some m -> search p s = Some m.
Proof. intros H. destruct s; cbn [search]; rewrite H; reflexivity. Qed.

(** A search skips a prefix on which the first class never matches. *)
Lemma search_skip_prefix k p pre s :
  forallb (fun c => negb (cls_match k c)) pre = true ->
  search (k :: p) (pre ++ s) = search (k :: p) s.
Proof.
  induction pre as [|c pre IH]; intros H; [reflexivity|].
  cbn [forallb] in H. apply andb_true_iff in H. destruct H as (Hc & H).
  cbn [app search match_at].
  destruct (cls_match k c); [discriminate|]. apply IH. exact H.
Qed.

Lemma no_digit_skips_digit pre :
  no_digit pre = true ->
  forallb (fun c => negb (cls_match Digit c)) pre = true.
Proof. intros H. exact H. Qed.

Lemma no_digit_skips_two pre :
  no_digit pre = true ->
  forallb (fun c => negb (cls_match (Lit 0x32) c)) pre = true.
Proof.
  unfold no_digit. rewrite !forallb_forall. intros H c Hin.
  specialize (H c Hin). cbn [cls_match]. unfold char_eqb.
  destruct (Z.eqb_spec c 0x32) as [-> | Hne]; [|reflexivity].
  vm_compute in H. discriminate.
Qed.

Lemma delims_match c :
  In c delims -> cls_match (OneOf [dot; dash; underscore]) c = true.
Proof.
  intros H. cbn [cls_match]. apply existsb_exists. exists c.
  split; [exact H | apply Z.eqb_refl].
Qed.

Lemma matched_fields_no_delimited name :
  search delimited_pattern name = None ->
  matched_fields name
  = match search contiguous_pattern name with
    | Some m2 =>
        if AgeScript._is_valid_date (PStr (slice m2 0 4))
             (PStr (slice m2 4 6)) (PStr (slice m2 6 8))
        then Some (slice m2 0 4, slice m2 4 6, slice m2 6 8)
        else None
    | None => None
    end.
Proof. intros E. unfold matched_fields. rewrite E. reflexivity. Qed.

(** What both extractors return once the selected fields are known to be
    the decimal texts of [y], [m], [d]. *)
Lemma selected_outcome os filename y m d :
  in_ranges y m d ->
  matched_fields (fst (splitext os filename))
  = Some (str_of_int y, pad2 m, pad2 d) ->
  TimestampScript.extract_date_from_filename os filename
  = Some (spec_format y m d)
  /\ (d <= Datetime._days_in_month y m ->
      AgeScript.extract_date_from_filename os filename
      = Ok (Some (Datetime.make y m d)))
  /\ (Datetime._days_in_month y m < d ->
      AgeScript.extract_date_from_filename os filename
      = Raise ValueError).
Proof.
  intros R E. pose proof R as (Ry & Rm & Rd).
  destruct (year_string y Ry) as (c & dd & Hc & Hdd & Ey & Sy).
  destruct (pad2_string m ltac:(lia)) as (e & f & He & Hf & Em & Sm).
  destruct (pad2_string d ltac:(lia)) as (g & h & Hg & Hh & Ed & Sd).
  assert (Iy : py_int (PStr (str_of_int y)) = Ok y).
  { rewrite Sy.
    rewrite (py_int_4 50 48 (48 + c) (48 + dd) 2 0 c dd);
      [f_equal; lia | apply (decimal_of_value 2); lia
       | apply (decimal_of_value 0); lia
       | apply decimal_of_value; lia | apply decimal_of_value; lia]. }
  assert (Im : py_int (PStr (pad2 m)) = Ok m).
  { rewrite Sm. rewrite (py_int_2 _ _ e f);
      [f_equal; lia | apply decimal_of_value; lia
       | apply decimal_of_value; lia]. }
  assert (Id : py_int (PStr (pad2 d)) = Ok d).
  { rewrite Sd. rewrite (py_int_2 _ _ g h);
      [f_equal; lia | apply decimal_of_value; lia
       | apply decimal_of_value; lia]. }
  rewrite stamp_by_fields, age_by_fields, E, Iy, Im, Id. cbn [bind].
  destruct (new_in_ranges y m d R) as (N1 & N2).
  split; [reflexivity|]. split; intros H.
  - rewrite (N1 H). reflexivity.
  - rewrite (N2 H). reflexivity.
Qed.

(** X3: a stem made of digit-free text, then year, separator, two-digit
    month, separator, two-digit day (each separator any of [. - _]),
    then anything at all, is read back as that date when the numbers are
    in range: the timestamp script returns "YYYY.MM.DD" with the
    separators replaced by dots, the age script returns the date when it
    is a calendar day and raises otherwise.  Whatever follows the date,
    a second date included, plays no part. *)
Theorem X3_delimited_date_read_back
  os filename pre post y m d c1 c2 :
  fst (splitext os filename)
  = pre ++ (str_of_int y ++ [c1] ++ pad2 m ++ [c2] ++ pad2 d) ++ post ->
  no_digit pre = true ->
  In c1 delims -> In c2 delims ->
  in_ranges y m d ->
  TimestampScript.extract_date_from_filename os filename
  = Some (spec_format y m d)
  /\ (d <= Datetime._days_in_month y m ->
      AgeScript.extract_date_from_filename os filename
      = Ok (Some (Datetime.make y m d)))
  /\ (Datetime._days_in_month y m < d ->
      AgeScript.extract_date_from_filename os filename
      = Raise ValueError).
Proof.
  intros Hstem Hpre H1 H2 R. apply selected_outcome; [exact R|].
  pose proof R as (Ry & Rm & Rd).
  destruct (year_string y Ry) as (c & dd & Hc & Hdd & Ey & Sy).
  destruct (pad2_string m ltac:(lia)) as (e & f & He & Hf & Em & Sm).
  destruct (pad2_string d ltac:(lia)) as (g & h & Hg & Hh & Ed & Sd).
  rewrite Hstem.
  assert (Hs : search delimited_pattern
                 (pre ++ (str_of_int y ++ [c1] ++ pad2 m ++ [c2] ++ pad2 d)
                      ++ post)
               = Some (str_of_int y ++ [c1] ++ pad2 m ++ [c2] ++ pad2 d)).
  { unfold delimited_pattern.
    rewrite search_skip_prefix by (apply no_digit_skips_digit; exact Hpre).
    apply search_head. rewrite Sy, Sm, Sd. cbn [app].
    repeat (apply match_at_cons;
            [first [ apply delims_match; assumption
                   | apply (isdecimal_of_ascii 2); lia
                   | apply (isdecimal_of_ascii 0); lia
                   | apply isdecimal_of_ascii; lia ] |]).
    reflexivity. }
  assert (Hsl :
    slice (str_of_int y ++ [c1] ++ pad2 m ++ [c2] ++ pad2 d) 0 4
    = str_of_int y
    /\ slice (str_of_int y ++ [c1] ++ pad2 m ++ [c2] ++ pad2 d) 5 7 = pad2 m
    /\ slice (str_of_int y ++ [c1] ++ pad2 m ++ [c2] ++ pad2 d) 8 10
       = pad2 d).
  { rewrite Sy, Sm, Sd. repeat split; reflexivity. }
  destruct Hsl as (S1 & S2 & S3).
  rewrite (matched_fields_delimited _ _ Hs); rewrite S1, S2, S3;
    [reflexivity|].
  apply (is_valid_date_ranges _ _ _ y m d); [| | |exact R].
  - rewrite Sy.
    rewrite (py_int_4 50 48 (48 + c) (48 + dd) 2 0 c dd);
      [f_equal; lia | apply (decimal_of_value 2); lia
       | apply (decimal_of_value 0); lia
       | apply decimal_of_value; lia | apply decimal_of_value; lia].
  - rewrite Sm. rewrite (py_int_2 _ _ e f);
      [f_equal; lia | apply decimal_of_value; lia
       | apply decimal_of_value; lia].
  - rewrite Sd. rewrite (py_int_2 _ _ g h);
      [f_equal; lia | apply decimal_of_value; lia
       | apply decimal_of_value; lia].
Qed.

(** X3 at ["photo_2024-02_29_and_2022.09.21.png"]. *)
Lemma X3_delimited_date_read_back_witness :
  TimestampScript.extract_date_from_filename nt
    (str_of "photo_2024-02_29_and_2022.09.21.png")
  = Some (spec_format 2024 2 29).
Proof.
  apply (X3_delimited_date_read_back nt
           (str_of "photo_2024-02_29_and_2022.09.21.png")
           (str_of "photo_") (str_of "_and_2022.09.21")
           2024 2 29 dash underscore).
  - vm_compute. reflexivity.
  - vm_compute. reflexivity.
  - cbn. tauto.
  - cbn. tauto.
  - unfold in_ranges. lia.
Defined.

(** X4: when the stem holds no delimited triple, digit-free text
    followed by the eight digits YYYYMMDD of a date with year 2020..2099
    is read back as that date, whatever follows. *)
Theorem X4_contiguous_date_read_back os filename pre post y m d :
  fst (splitext os filename)
  = pre ++ (str_of_int y ++ pad2 m ++ pad2 d) ++ post ->
  no_digit pre = true ->
  search delimited_pattern (fst (splitext os filename)) = None ->
  2020 <= y -> in_ranges y m d ->
  TimestampScript.extract_date_from_filename os filename
  = Some (spec_format y m d)
  /\ (d <= Datetime._days_in_month y m ->
      AgeScript.extract_date_from_filename os filename
      = Ok (Some (Datetime.make y m d)))
  /\ (Datetime._days_in_month y m < d ->
      AgeScript.extract_date_from_filename os filename
      = Raise ValueError).
Proof.
  intros Hstem Hpre Hnone Hy R. apply selected_outcome; [exact R|].
  pose proof R as (Ry & Rm & Rd).
  destruct (year_string y Ry) as (c & dd & Hc & Hdd & Ey & Sy).
  destruct (pad2_string m ltac:(lia)) as (e & f & He & Hf & Em & Sm).
  destruct (pad2_string d ltac:(lia)) as (g & h & Hg & Hh & Ed & Sd).
  rewrite (matched_fields_no_delimited _ Hnone). rewrite Hstem.
  assert (Hs : search contiguous_pattern
                 (pre ++ (str_of_int y ++ pad2 m ++ pad2 d) ++ post)
               = Some (str_of_int y ++ pad2 m ++ pad2 d)).
  { unfold contiguous_pattern.
    rewrite search_skip_prefix by (apply no_digit_skips_two; exact Hpre).
    apply search_head. rewrite Sy, Sm, Sd. cbn [app].
    apply match_at_cons; [reflexivity|].
    apply match_at_cons; [reflexivity|].
    apply match_at_cons;
      [cbn [cls_match]; apply andb_true_iff;
       split; apply Z.leb_le; lia|].
    repeat (apply match_at_cons; [apply isdecimal_of_ascii; lia|]).
    reflexivity. }
  rewrite Hs.
  assert (Hsl :
    slice (str_of_int y ++ pad2 m ++ pad2 d) 0 4 = str_of_int y
    /\ slice (str_of_int y ++ pad2 m ++ pad2 d) 4 6 = pad2 m
    /\ slice (str_of_int y ++ pad2 m ++ pad2 d) 6 8 = pad2 d).
  { rewrite Sy, Sm, Sd. repeat split; reflexivity. }
  destruct Hsl as (S1 & S2 & S3). rewrite S1, S2, S3.
  replace (AgeScript._is_valid_date (PStr (str_of_int y)) (PStr (pad2 m))
             (PStr (pad2 d))) with true; [reflexivity|].
  symmetry. apply (is_valid_date_ranges _ _ _ y m d); [| | |exact R].
  - rewrite Sy.
    rewrite (py_int_4 50 48 (48 + c) (48 + dd) 2 0 c dd);
      [f_equal; lia | apply (decimal_of_value 2); lia
       | apply (decimal_of_value 0); lia
       | apply decimal_of_value; lia | apply decimal_of_value; lia].
  - rewrite Sm. rewrite (py_int_2 _ _ e f);
      [f_equal; lia | apply decimal_of_value; lia
       | apply decimal_of_value; lia].
  - rewrite Sd. rewrite (py_int_2 _ _ g h);
      [f_equal; lia | apply decimal_of_value; lia
       | apply decimal_of_value; lia].
Qed.

(** X4 at ["IMG_xxx20250904_1.jpg"]. *)
Lemma X4_contiguous_date_read_back_witness :
  AgeScript.extract_date_from_filename nt (str_of "IMG_xxx20250904_1.jpg")
  = Ok (Some (Datetime.make 2025 9 4)).
Proof.
  apply (proj1 (proj2 (X4_contiguous_date_read_back nt
                         (str_of "IMG_xxx20250904_1.jpg")
                         (str_of "IMG_xxx") (str_of "_1") 2025 9 4
                         eq_refl eq_refl eq_refl ltac:(lia)
                         ltac:(unfold in_ranges; lia)))).
  vm_compute. discriminate.
Defined.

(** X5: when the delimited rule selects nothing (no delimited triple, or
    a leftmost one that fails validation), every date that comes back
    has its year in 2020..2099: the contiguous pattern [20[2-9]\d]
    cannot read the years 2000..2019 that [_is_valid_date] would
    accept. *)
Theorem X5_contiguous_years_from_2020 os filename :
  (forall m,
      search delimited_pattern (fst (splitext os filename)) = Some m ->
      AgeScript._is_valid_date (PStr (slice m 0 4)) (PStr (slice m 5 7))
        (PStr (slice m 8 10)) = false) ->
  (forall dt,
      AgeScript.extract_date_from_filename os filename = Ok (Some dt) ->
      2020 <= Datetime.year dt <= 2099)
  /\ (forall s,
      TimestampScript.extract_date_from_filename os filename = Some s ->
      exists ys ms ds y,
        s = TimestampScript.render ys ms ds
        /\ py_int (PStr ys) = Ok y /\ 2020 <= y <= 2099).
Proof.
  intros Hrej.
  assert (Hsel : forall ys ms ds,
    matched_fields (fst (splitext os filename)) = Some (ys, ms, ds) ->
    exists y m d, fields_ok (fst (splitext os filename)) ys ms ds y m d
                  /\ 2020 <= y <= 2099).
  { intros ys ms ds E.
    destruct (matched_fields_ok _ _ _ _ E) as (y & m & d & Hok).
    exists y, m, d. split; [exact Hok|].
    pose proof (fo_ranges _ _ _ _ _ _ _ Hok) as (Ry & _).
    split; [|lia].
    assert (Efb :
      match search contiguous_pattern (fst (splitext os filename)) with
      | Some m2 =>
          if AgeScript._is_valid_date (PStr (slice m2 0 4))
               (PStr (slice m2 4 6)) (PStr (slice m2 6 8))
          then Some (slice m2 0 4, slice m2 4 6, slice m2 6 8)
          else None
      | None => None
      end = Some (ys, ms, ds)).
    { destruct (search delimited_pattern (fst (splitext os filename)))
        as [m1|] eqn:E1.
      - rewrite (matched_fields_rejected _ _ E1 (Hrej m1 eq_refl)) in E.
        exact E.
      - rewrite (matched_fields_no_delimited _ E1) in E. exact E. }
    destruct (search contiguous_pattern (fst (splitext os filename)))
      as [m2|] eqn:E2; [|discriminate].
    destruct (AgeScript._is_valid_date _ _ _); [|discriminate].
    injection Efb as <- _ _.
    apply search_sound in E2. destruct E2 as (pre & post & _ & Hm).
    destruct (contiguous_shape _ _ Hm)
      as (c & dd & e & f & g & h & -> & Hc & HF).
    change (slice [50; 48; c; dd; e; f; g; h] 0 4) with [50; 48; c; dd]
      in *.
    digit_of HF dd vd Dd Bd.
    pose proof (py_int_4 50 48 c dd 2 0 (c - 48) vd
                  ltac:(apply (decimal_ascii_digit 50); lia)
                  ltac:(apply (decimal_ascii_digit 48); lia)
                  ltac:(apply decimal_ascii_digit; lia) Dd) as Iy.
    destruct (fo_int _ _ _ _ _ _ _ Hok) as (Iy' & _).
    rewrite Iy in Iy'. apply Ok_inj in Iy'. lia. }
  split.
  - intros dt H. rewrite age_by_fields in H.
    destruct (matched_fields (fst (splitext os filename)))
      as [[[ys ms] ds]|] eqn:E; [|discriminate].
    destruct (Hsel _ _ _ eq_refl) as (y & m & d & Hok & Hy).
    destruct (fo_int _ _ _ _ _ _ _ Hok) as (Iy & Im & Id).
    rewrite Iy, Im, Id in H. cbn [bind] in H.
    destruct (Datetime.new y m d) as [dt'|] eqn:En; [|discriminate].
    cbn in H. injection H as <-. apply new_ok in En. subst dt'.
    exact Hy.
  - intros s H. rewrite stamp_by_fields in H.
    destruct (matched_fields (fst (splitext os filename)))
      as [[[ys ms] ds]|] eqn:E; [|discriminate].
    destruct (Hsel _ _ _ eq_refl) as (y & m & d & Hok & Hy).
    destruct (fo_int _ _ _ _ _ _ _ Hok) as (Iy & _).
    injection H as <-. exists ys, ms, ds, y. repeat split; try assumption; lia.
Qed.

(** X5 at ["IMG_20190904_20231105.jpg"]: the 2019 date is passed over. *)
Lemma X5_contiguous_years_from_2020_witness :
  2020 <= Datetime.year (Datetime.make 2023 11 5) <= 2099.
Proof.
  apply (proj1 (X5_contiguous_years_from_2020 nt
                  (str_of "IMG_20190904_20231105.jpg")
                  ltac:(intros m H; vm_compute in H; discriminate))).
  vm_compute. reflexivity.
Defined.

(** * Further properties of the age label *)

(** The borrowing arithmetic in closed form, with the month length taken
    from the calendar. *)
Lemma age_parts_closed y m d :
  1 <= m <= 12 ->
  AgeScript.age_parts (Datetime.make y m d)
  = if d <? 2
    then (12 * (y - 2025) + (m - 9) - 1,
          d - 2 + previous_month_length y m)
    else (12 * (y - 2025) + (m - 9), d - 2).
Proof.
  intros Hm. rewrite age_parts_spec by exact Hm.
  unfold spec_parts, AgeScript.BIRTH_DATE, previous_month_length.
  cbn [Datetime.year Datetime.month Datetime.day]. cbv zeta.
  assert (Hprev :
    (if m =? 1 then spec_month_length (y - 1) 12
     else spec_month_length y (m - 1))
    = if m =? 1 then Datetime._days_in_month (y - 1) 12
      else Datetime._days_in_month y (m - 1)).
  { destruct (Z.eqb_spec m 1);
      rewrite spec_month_length_calendar by lia; reflexivity. }
  rewrite Hprev.
  destruct (Z.ltb_spec (d - 2) 0); destruct (Z.ltb_spec d 2); try lia;
    match goal with
    | |- context [?a <? 0] => destruct (Z.ltb_spec a 0)
    end; f_equal; lia.
Qed.

Lemma previous_month_length_bounds y m :
  1 <= m <= 12 -> 28 <= previous_month_length y m <= 31.
Proof.
  intros H. unfold previous_month_length.
  destruct (Z.eqb_spec m 1); apply days_in_month_pos; lia.
Qed.

(** X6: the pair (total months, days) that the label is rendered from
    grows strictly with the date: of two calendar days on or after the
    reference date, the later one has more months, or the same months
    and more days.  Different days never share a label pair. *)
Theorem X6_age_parts_strictly_increasing a b :
  calendar_day a -> calendar_day b ->
  Datetime.lt a AgeScript.BIRTH_DATE = false ->
  Datetime.lt a b = true ->
  parts_lt (AgeScript.age_parts a) (AgeScript.age_parts b).
Proof.
  destruct a as [ya ma da], b as [yb mb db].
  unfold calendar_day. cbn [Datetime.year Datetime.month Datetime.day].
  intros (Hma & Hda) (Hmb & Hdb) _ Hlt.
  apply lt_spec in Hlt.
  cbn [Datetime.year Datetime.month Datetime.day] in Hlt.
  rewrite !age_parts_closed by assumption.
  pose proof (previous_month_length_bounds ya ma Hma) as Pa.
  pose proof (previous_month_length_bounds yb mb Hmb) as Pb.
  assert (Cases :
    (ya = yb /\ ma = mb)
    \/ (yb = ya /\ mb = ma + 1)
    \/ (yb = ya + 1 /\ ma = 12 /\ mb = 1)
    \/ 12 * ya + ma + 2 <= 12 * yb + mb) by lia.
  unfold parts_lt.
  destruct Cases as [(-> & ->) | [(-> & ->) | [(-> & -> & ->) | Far]]].
  - destruct (Z.ltb_spec da 2); destruct (Z.ltb_spec db 2);
      cbn [fst snd]; lia.
  - assert (E : previous_month_length ya (ma + 1)
                = Datetime._days_in_month ya ma).
    { unfold previous_month_length.
      destruct (Z.eqb_spec (ma + 1) 1); [lia|].
      replace (ma + 1 - 1) with ma by lia. reflexivity. }
    rewrite E.
    destruct (Z.ltb_spec da 2); destruct (Z.ltb_spec db 2);
      cbn [fst snd]; lia.
  - assert (E : previous_month_length (ya + 1) 1
                = Datetime._days_in_month ya 12).
    { unfold previous_month_length. cbn.
      replace (ya + 1 - 1) with ya by lia. reflexivity. }
    rewrite E.
    destruct (Z.ltb_spec da 2); destruct (Z.ltb_spec db 2);
      cbn [fst snd]; lia.
  - destruct (Z.ltb_spec da 2); destruct (Z.ltb_spec db 2);
      cbn [fst snd]; lia.
Qed.

(** X6 across the end of February 2028. *)
Lemma X6_age_parts_strictly_increasing_witness :
  parts_lt (AgeScript.age_parts (Datetime.make 2028 2 29))
    (AgeScript.age_parts (Datetime.make 2028 3 1)).
Proof.
  apply X6_age_parts_strictly_increasing.
  - vm_compute. repeat split; discriminate.
  - vm_compute. repeat split; discriminate.
  - vm_compute. reflexivity.
  - vm_compute. reflexivity.
Defined.

(** X7: on or after the reference date the day part of the label is
    zero exactly on the 2nd of a month; from 2025-10-02 on, the label of
    such a day is the whole number of months 12(y-2025)+(m-9) followed
    by "个月" and nothing else. *)
Theorem X7_whole_months_on_the_second dt :
  calendar_day dt ->
  Datetime.lt dt AgeScript.BIRTH_DATE = false ->
  (snd (AgeScript.age_parts dt) = 0 <-> Datetime.day dt = 2)
  /\ (Datetime.day dt = 2 ->
      dt <> AgeScript.BIRTH_DATE ->
      1 <= 12 * (Datetime.year dt - 2025) + (Datetime.month dt - 9)
      /\ AgeScript.calculate_age dt
         = str_of_int (12 * (Datetime.year dt - 2025)
                       + (Datetime.month dt - 9))
           ++ AgeScript.ge_yue).
Proof.
  destruct dt as [y m d]. unfold calendar_day.
  cbn [Datetime.year Datetime.month Datetime.day].
  intros (Hm & Hd) Hlt.
  pose proof (previous_month_length_bounds y m Hm) as P.
  split.
  - rewrite age_parts_closed by assumption.
    destruct (Z.ltb_spec d 2); cbn [snd]; lia.
  - intros -> Hne. unfold AgeScript.calculate_age. rewrite Hlt.
    rewrite age_parts_closed by assumption.
    change (2 <? 2) with false. cbv iota. cbn [Z.sub Z.add Z.opp Z.pos_sub].
    apply not_before_spec in Hlt. unfold AgeScript.BIRTH_DATE in *.
    cbn [Datetime.year Datetime.month Datetime.day] in Hlt.
    assert (Hpos : 1 <= 12 * (y - 2025) + (m - 9)).
    { assert (~ (y = 2025 /\ m = 9)) by (intros (-> & ->); congruence).
      lia. }
    split; [exact Hpos|].
    destruct (Z.eqb_spec (12 * (y - 2025) + (m - 9)) 0); [lia|].
    reflexivity.
Qed.

(** X7 at 2026-01-02. *)
Lemma X7_whole_months_on_the_second_witness :
  AgeScript.calculate_age (Datetime.make 2026 1 2)
  = str_of_int (12 * (2026 - 2025) + (1 - 9)) ++ AgeScript.ge_yue.
Proof.
  apply (proj2 (X7_whole_months_on_the_second (Datetime.make 2026 1 2)
                  ltac:(vm_compute; repeat split; discriminate) eq_refl)).
  - reflexivity.
  - discriminate.
Defined.

(** X8: on or after the reference date the label is days only ("N天")
    exactly from 2025-09-02 to 2025-10-01: N is the day of the month
    minus 2 in September and 29 on the 1st of October. *)
Theorem X8_days_only_in_the_first_month dt :
  calendar_day dt ->
  Datetime.lt dt AgeScript.BIRTH_DATE = false ->
  (fst (AgeScript.age_parts dt) = 0
   <-> (Datetime.year dt = 2025 /\ Datetime.month dt = 9)
       \/ dt = Datetime.make 2025 10 1)
  /\ (Datetime.year dt = 2025 -> Datetime.month dt = 9 ->
      AgeScript.calculate_age dt
      = str_of_int (Datetime.day dt - 2) ++ AgeScript.tian)
  /\ (dt = Datetime.make 2025 10 1 ->
      AgeScript.calculate_age dt = str_of "29" ++ AgeScript.tian).
Proof.
  destruct dt as [y m d]. unfold calendar_day.
  cbn [Datetime.year Datetime.month Datetime.day].
  intros (Hm & Hd) Hlt. pose proof Hlt as Hlt'.
  apply not_before_spec in Hlt'. unfold AgeScript.BIRTH_DATE in Hlt'.
  cbn [Datetime.year Datetime.month Datetime.day] in Hlt'.
  split; [|split].
  - rewrite age_parts_closed by assumption.
    destruct (Z.ltb_spec d 2); cbn [fst]; split.
    + intros H0. right. f_equal; lia.
    + intros [(-> & ->) | E]; [lia | injection E as -> -> ->; lia].
    + intros H0. left. lia.
    + intros [(-> & ->) | E]; [lia | injection E as -> -> ->; lia].
  - intros -> ->. unfold AgeScript.calculate_age. rewrite Hlt.
    rewrite age_parts_closed by assumption.
    destruct (Z.ltb_spec d 2); [lia|]. reflexivity.
  - intros E. rewrite E. vm_compute. reflexivity.
Qed.

(** X8 at 2025-09-30. *)
Lemma X8_days_only_in_the_first_month_witness :
  AgeScript.calculate_age (Datetime.make 2025 9 30)
  = str_of_int (30 - 2) ++ AgeScript.tian.
Proof.
  apply (proj1 (proj2 (X8_days_only_in_the_first_month
                         (Datetime.make 2025 9 30)
                         ltac:(vm_compute; repeat split; discriminate)
                         eq_refl)));
    reflexivity.
Defined.

(** * Properties of the batch loops *)

Lemma count_events_cons f e log :
  count_events f (e :: log)
  = (if f e then 1 else 0) + count_events f log.
Proof.
  unfold count_events. cbn [filter]. destruct (f e); cbn [List.length]; lia.
Qed.

Lemma timestamp_loop_spec os draw : forall files s0 k0,
  map event_name (fst (TimestampDriver.loop os draw files s0 k0))
  = map Some files
  /\ fst (snd (TimestampDriver.loop os draw files s0 k0))
     = s0 + count_events is_processed
              (fst (TimestampDriver.loop os draw files s0 k0))
  /\ snd (snd (TimestampDriver.loop os draw files s0 k0))
     = k0 + count_events is_skipped
              (fst (TimestampDriver.loop os draw files s0 k0))
  /\ count_events is_processed
       (fst (TimestampDriver.loop os draw files s0 k0))
     + count_events is_skipped
         (fst (TimestampDriver.loop os draw files s0 k0))
     + count_events is_failed
         (fst (TimestampDriver.loop os draw files s0 k0))
     = Z.of_nat (List.length files)
  /\ count_events is_skipped
       (fst (TimestampDriver.loop os draw files s0 k0))
     = Z.of_nat (List.length (filter (has_no_date os) files)).
Proof.
  induction files as [|f rest IH]; intros s0 k0.
  - cbn. repeat split; try reflexivity; lia.
  - cbn [TimestampDriver.loop filter]. unfold has_no_date at 1.
    destruct (TimestampScript.extract_date_from_filename os f) as [s|].
    + destruct (draw f s).
      * specialize (IH (s0 + 1) k0).
        destruct (TimestampDriver.loop os draw rest (s0 + 1) k0)
          as [log [s' k']].
        cbn [fst snd] in *. rewrite !count_events_cons.
        cbn [is_processed is_skipped is_failed map event_name List.length].
        destruct IH as (I1 & I2 & I3 & I4 & I5).
        repeat split; [f_equal; exact I1 | lia | lia | lia | lia].
      * specialize (IH s0 k0).
        destruct (TimestampDriver.loop os draw rest s0 k0)
          as [log [s' k']].
        cbn [fst snd] in *. rewrite !count_events_cons.
        cbn [is_processed is_skipped is_failed map event_name List.length].
        destruct IH as (I1 & I2 & I3 & I4 & I5).
        repeat split; [f_equal; exact I1 | lia | lia | lia | lia].
    + specialize (IH s0 (k0 + 1)).
      destruct (TimestampDriver.loop os draw rest s0 (k0 + 1))
        as [log [s' k']].
      cbn [fst snd] in *. rewrite !count_events_cons.
      cbn [is_processed is_skipped is_failed map event_name List.length].
      destruct IH as (I1 & I2 & I3 & I4 & I5).
      repeat split; [f_equal; exact I1 | lia | lia | lia | lia].
Qed.

(** X9: the timestamp script's loop reports every file exactly once and
    in order, as processed, skipped or failed; [success_count] and
    [skip_count] are the numbers of processed and skipped files, the
    skipped files are exactly those whose name yields no date, and
    success + skip falls short of the number of files by the number of
    files whose drawing raised. *)
Theorem X9_timestamp_batch_tallies os draw files :
  map event_name (fst (TimestampDriver.loop os draw files 0 0))
  = map Some files
  /\ fst (snd (TimestampDriver.loop os draw files 0 0))
     = count_events is_processed
         (fst (TimestampDriver.loop os draw files 0 0))
  /\ snd (snd (TimestampDriver.loop os draw files 0 0))
     = Z.of_nat (List.length (filter (has_no_date os) files))
  /\ fst (snd (TimestampDriver.loop os draw files 0 0))
     + snd (snd (TimestampDriver.loop os draw files 0 0))
     + count_events is_failed
         (fst (TimestampDriver.loop os draw files 0 0))
     = Z.of_nat (List.length files).
Proof.
  destruct (timestamp_loop_spec os draw files 0 0)
    as (I1 & I2 & I3 & I4 & I5).
  repeat split; [exact I1 | lia | lia | lia].
Qed.

Lemma age_loop_complete os draw : forall files s0 k0,
  forallb (fun f => negb (age_raises os f)) files = true ->
  snd (AgeDriver.loop os draw files s0 k0) = None
  /\ map event_name (fst (fst (AgeDriver.loop os draw files s0 k0)))
     = map Some files
  /\ fst (snd (fst (AgeDriver.loop os draw files s0 k0)))
     = s0 + count_events is_processed
              (fst (fst (AgeDriver.loop os draw files s0 k0)))
  /\ snd (snd (fst (AgeDriver.loop os draw files s0 k0)))
     = k0 + count_events is_skipped
              (fst (fst (AgeDriver.loop os draw files s0 k0)))
  /\ count_events is_processed
       (fst (fst (AgeDriver.loop os draw files s0 k0)))
     + count_events is_skipped
         (fst (fst (AgeDriver.loop os draw files s0 k0)))
     + count_events is_failed
         (fst (fst (AgeDriver.loop os draw files s0 k0)))
     = Z.of_nat (List.length files)
  /\ count_events is_skipped
       (fst (fst (AgeDriver.loop os draw files s0 k0)))
     = Z.of_nat (List.length (filter (age_no_date os) files)).
Proof.
  induction files as [|f rest IH]; intros s0 k0 H.
  - cbn. repeat split; try reflexivity; lia.
  - cbn [forallb] in H. apply andb_true_iff in H. destruct H as (Hf & H).
    cbn [AgeDriver.loop filter]. unfold age_no_date at 1.
    unfold age_raises in Hf.
    destruct (AgeScript.extract_date_from_filename os f) as [[dt|]|e];
      [| |discriminate].
    + destruct (draw f (AgeScript.calculate_age dt)).
      * specialize (IH (s0 + 1) k0 H).
        destruct (AgeDriver.loop os draw rest (s0 + 1) k0)
          as [[log [s' k']] r].
        cbn [fst snd] in *. rewrite !count_events_cons.
        cbn [is_processed is_skipped is_failed map event_name List.length].
        destruct IH as (I0 & I1 & I2 & I3 & I4 & I5).
        repeat split;
          [exact I0 | f_equal; exact I1 | lia | lia | lia | lia].
      * specialize (IH s0 k0 H).
        destruct (AgeDriver.loop os draw rest s0 k0)
          as [[log [s' k']] r].
        cbn [fst snd] in *. rewrite !count_events_cons.
        cbn [is_processed is_skipped is_failed map event_name List.length].
        destruct IH as (I0 & I1 & I2 & I3 & I4 & I5).
        repeat split;
          [exact I0 | f_equal; exact I1 | lia | lia | lia | lia].
    + specialize (IH s0 (k0 + 1) H).
      destruct (AgeDriver.loop os draw rest s0 (k0 + 1))
        as [[log [s' k']] r].
      cbn [fst snd] in *. rewrite !count_events_cons.
      cbn [is_processed is_skipped is_failed map event_name List.length].
      destruct IH as (I0 & I1 & I2 & I3 & I4 & I5).
      repeat split;
        [exact I0 | f_equal; exact I1 | lia | lia | lia | lia].
Qed.

Lemma age_loop_aborts os draw bad after e : forall before s0 k0,
  forallb (fun f => negb (age_raises os f)) before = true ->
  AgeScript.extract_date_from_filename os bad = Raise e ->
  snd (AgeDriver.loop os draw (before ++ bad :: after) s0 k0) = Some e
  /\ map event_name
       (fst (fst (AgeDriver.loop os draw (before ++ bad :: after) s0 k0)))
     = map Some before.
Proof.
  induction before as [|f rest IH]; intros s0 k0 H Hbad.
  - cbn [app AgeDriver.loop]. rewrite Hbad. cbn. split; reflexivity.
  - cbn [forallb] in H. apply andb_true_iff in H. destruct H as (Hf & H).
    cbn [app AgeDriver.loop]. unfold age_raises in Hf.
    destruct (AgeScript.extract_date_from_filename os f) as [[dt|]|e'];
      [| |discriminate].
    + destruct (draw f (AgeScript.calculate_age dt)).
      * specialize (IH (s0 + 1) k0 H Hbad).
        destruct (AgeDriver.loop os draw (rest ++ bad :: after) (s0 + 1) k0)
          as [[log c] r].
        cbn [fst snd map event_name] in *. destruct IH as (I0 & I1).
        split; [exact I0 | f_equal; exact I1].
      * specialize (IH s0 k0 H Hbad).
        destruct (AgeDriver.loop os draw (rest ++ bad :: after) s0 k0)
          as [[log c] r].
        cbn [fst snd map event_name] in *. destruct IH as (I0 & I1).
        split; [exact I0 | f_equal; exact I1].
    + specialize (IH s0 (k0 + 1) H Hbad).
      destruct (AgeDriver.loop os draw (rest ++ bad :: after) s0 (k0 + 1))
        as [[log c] r].
      cbn [fst snd map event_name] in *. destruct IH as (I0 & I1).
      split; [exact I0 | f_equal; exact I1].
Qed.

(** X10: in the age script one name on which the extractor raises ends
    the whole run: the files listed before the first such name are
    reported, that file and every file after it are not, the exception
    leaves [process_photos] and no summary is printed. *)
Theorem X10_age_batch_aborts os draw before bad after e :
  forallb (fun f => negb (age_raises os f)) before = true ->
  AgeScript.extract_date_from_filename os bad = Raise e ->
  exists log,
    map event_name log = map Some before
    /\ AgeDriver.process_photos os draw (before ++ bad :: after)
       = (Found (List.length (before ++ bad :: after)) :: log, Some e).
Proof.
  intros H Hbad.
  destruct (age_loop_aborts os draw bad after e before 0 0 H Hbad)
    as (I0 & I1).
  exists (fst (fst (AgeDriver.loop os draw (before ++ bad :: after) 0 0))).
  split; [exact I1|].
  unfold AgeDriver.process_photos.
  destruct (before ++ bad :: after) as [|x xs] eqn:E.
  - destruct before; discriminate.
  - destruct (AgeDriver.loop os draw (x :: xs) 0 0) as [[log [s k]] r].
    cbn [fst snd] in *. subst r. reflexivity.
Qed.

(** X10 on three files, the second named ["2022.04.31.jpg"]. *)
Lemma X10_age_batch_aborts_witness :
  exists log,
    map event_name log = map Some [str_of "IMG_20251002.jpg"]
    /\ AgeDriver.process_photos nt (fun _ _ => true)
         ([str_of "IMG_20251002.jpg"]
          ++ april_31_name :: [str_of "2025-12-25.png"])
       = (Found 3 :: log, Some ValueError).
Proof.
  apply (X10_age_batch_aborts nt (fun _ _ => true)
           [str_of "IMG_20251002.jpg"] april_31_name
           [str_of "2025-12-25.png"] ValueError).
  - vm_compute. reflexivity.
  - vm_compute. reflexivity.
Defined.

(** X11: when the extractor raises on none of the files, the age
    script's loop ends normally and reports every file exactly once and
    in order; [success_count] and [skip_count] are the numbers of
    processed and skipped files, the skipped ones being exactly those
    with no date, and success + skip + failed drawings is the number of
    files. *)
Theorem X11_age_batch_tallies os draw files :
  forallb (fun f => negb (age_raises os f)) files = true ->
  snd (AgeDriver.loop os draw files 0 0) = None
  /\ map event_name (fst (fst (AgeDriver.loop os draw files 0 0)))
     = map Some files
  /\ fst (snd (fst (AgeDriver.loop os draw files 0 0)))
     = count_events is_processed
         (fst (fst (AgeDriver.loop os draw files 0 0)))
  /\ snd (snd (fst (AgeDriver.loop os draw files 0 0)))
     = Z.of_nat (List.length (filter (age_no_date os) files))
  /\ fst (snd (fst (AgeDriver.loop os draw files 0 0)))
     + snd (snd (fst (AgeDriver.loop os draw files 0 0)))
     + count_events is_failed
         (fst (fst (AgeDriver.loop os draw files 0 0)))
     = Z.of_nat (List.length files).
Proof.
  intros H.
  destruct (age_loop_complete os draw files 0 0 H)
    as (I0 & I1 & I2 & I3 & I4 & I5).
  repeat split; [exact I0 | exact I1 | lia | lia | lia].
Qed.

(** X11 on three files, one without a date. *)
Lemma X11_age_batch_tallies_witness :
  snd (snd (fst (AgeDriver.loop nt (fun _ _ => true)
                   [str_of "IMG_20251002.jpg"; str_of "vacation.jpg";
                    str_of "2025-12-25.png"] 0 0)))
  = Z.of_nat (List.length
                (filter (age_no_date nt)
                   [str_of "IMG_20251002.jpg"; str_of "vacation.jpg";
                    str_of "2025-12-25.png"])).
Proof.
  apply (X11_age_batch_tallies nt (fun _ _ => true)
           [str_of "IMG_20251002.jpg"; str_of "vacation.jpg";
            str_of "2025-12-25.png"]).
  vm_compute. reflexivity.
Defined.

Lemma age_loop_skipped os draw : forall files s0 k0,
  forallb (fun f => negb (age_raises os f)) files = true ->
  filter is_skipped (fst (fst (AgeDriver.loop os draw files s0 k0)))
  = map Skipped (filter (age_no_date os) files).
Proof.
  induction files as [|f rest IH]; intros s0 k0 H; [reflexivity|].
  cbn [forallb] in H. apply andb_true_iff in H. destruct H as (Hf & H).
  cbn [AgeDriver.loop filter]. unfold age_no_date at 1.
  unfold age_raises in Hf.
  destruct (AgeScript.extract_date_from_filename os f) as [[dt|]|e];
    [| |discriminate].
  - destruct (draw f (AgeScript.calculate_age dt)).
    + specialize (IH (s0 + 1) k0 H).
      destruct (AgeDriver.loop os draw rest (s0 + 1) k0) as [[log c] r].
      exact IH.
    + specialize (IH s0 k0 H).
      destruct (AgeDriver.loop os draw rest s0 k0) as [[log c] r].
      exact IH.
  - specialize (IH s0 (k0 + 1) H).
    destruct (AgeDriver.loop os draw rest s0 (k0 + 1)) as [[log c] r].
    cbn [fst snd filter is_skipped map] in *. f_equal. exact IH.
Qed.

Lemma timestamp_loop_skipped os draw : forall files s0 k0,
  filter is_skipped (fst (TimestampDriver.loop os draw files s0 k0))
  = map Skipped (filter (has_no_date os) files).
Proof.
  induction files as [|f rest IH]; intros s0 k0; [reflexivity|].
  cbn [TimestampDriver.loop filter]. unfold has_no_date at 1.
  destruct (TimestampScript.extract_date_from_filename os f) as [s|].
  - destruct (draw f s).
    + specialize (IH (s0 + 1) k0).
      destruct (TimestampDriver.loop os draw rest (s0 + 1) k0) as [log c].
      exact IH.
    + specialize (IH s0 k0).
      destruct (TimestampDriver.loop os draw rest s0 k0) as [log c].
      exact IH.
  - specialize (IH s0 (k0 + 1)).
    destruct (TimestampDriver.loop os draw rest s0 (k0 + 1)) as [log c].
    cbn [fst snd filter is_skipped map] in *. f_equal. exact IH.
Qed.

Lemma no_date_agree os f : age_no_date os f = has_no_date os f.
Proof.
  unfold age_no_date, has_no_date.
  destruct (extract_cases os f)
    as [[Ha Hs] | (ys & ms & ds & y & m & d & _ & Hs & Ha)];
    rewrite Ha, Hs; [reflexivity|].
  destruct (Datetime.new y m d); reflexivity.
Qed.

(** X12: run on the same files, the two scripts skip the same files:
    as long as the age script's extractor raises on none of them, the
    skipped files of one loop are the skipped files of the other, in the
    same order, whatever the drawing steps do. *)
Theorem X12_both_batches_skip_the_same_files
  os draw_age draw_stamp files :
  forallb (fun f => negb (age_raises os f)) files = true ->
  filter is_skipped (fst (fst (AgeDriver.loop os draw_age files 0 0)))
  = filter is_skipped (fst (TimestampDriver.loop os draw_stamp files 0 0)).
Proof.
  intros H. rewrite age_loop_skipped by exact H.
  rewrite timestamp_loop_skipped. f_equal.
  apply filter_ext. intros f. apply no_date_agree.
Qed.

(** X12 on three files, one without a date. *)
Lemma X12_both_batches_skip_the_same_files_witness :
  filter is_skipped
    (fst (fst (AgeDriver.loop nt (fun _ _ => true)
                 [str_of "IMG_20251002.jpg"; str_of "vacation.jpg";
                  str_of "2025-12-25.png"] 0 0)))
  = filter is_skipped
      (fst (TimestampDriver.loop nt (fun _ _ => false)
              [str_of "IMG_20251002.jpg"; str_of "vacation.jpg";
               str_of "2025-12-25.png"] 0 0)).
Proof.
  apply X12_both_batches_skip_the_same_files.
  vm_compute. reflexivity.
Defined.

Lemma search_no_digit k p s :
  forallb (fun c => negb (cls_match k c)) s = true ->
  search (k :: p) s = None.
Proof.
  intros H. rewrite <- (app_nil_r s).
  rewrite search_skip_prefix by exact H. reflexivity.
Qed.

(** X14: a name without a single decimal digit yields no date: both
    extractors return null, and the age script's does not raise. *)
Theorem X14_no_digit_no_date os filename :
  no_digit filename = true ->
  AgeScript.extract_date_from_filename os filename = Ok None
  /\ TimestampScript.extract_date_from_filename os filename = None.
Proof.
  intros H.
  assert (Hstem : no_digit (fst (splitext os filename)) = true).
  { destruct (splitext_root os filename) as (ext & E & _).
    unfold no_digit in *. rewrite E in H at 1.
    rewrite forallb_app in H. apply andb_true_iff in H. tauto. }
  assert (E : matched_fields (fst (splitext os filename)) = None).
  { unfold matched_fields, delimited_pattern, contiguous_pattern.
    rewrite (search_no_digit Digit)
      by (apply no_digit_skips_digit; exact Hstem).
    rewrite (search_no_digit (Lit 0x32))
      by (apply no_digit_skips_two; exact Hstem).
    reflexivity. }
  rewrite age_by_fields, stamp_by_fields, E. split; reflexivity.
Qed.

(** X14 at ["vacation.jpg"]. *)
Lemma X14_no_digit_no_date_witness :
  AgeScript.extract_date_from_filename nt (str_of "vacation.jpg") = Ok None
  /\ TimestampScript.extract_date_from_filename nt (str_of "vacation.jpg")
     = None.
Proof.
  apply X14_no_digit_no_date. vm_compute. reflexivity.
Defined.

(** * Extension stripping *)






Lemma no_separator_cons x s :
  no_separator (x :: s) = true ->
  x <> 47 /\ x <> 92 /\ no_separator s = true.
Proof.
  unfold no_separator. cbn [forallb]. unfold char_eqb.
  intros H. apply andb_true_iff in H. destruct H as (Hx & Hs).
  apply andb_true_iff in Hx. destruct Hx as (H1 & H2).
  destruct (Z.eqb_spec x 0x2f); [discriminate|].
  destruct (Z.eqb_spec x 0x5c); [discriminate|].
  repeat split; assumption.
Qed.










